(** * ETL: ingestion of air-quality JSON exports into DuckDB

    A shallow embedding of [load_to_duckdb.py].  Python values are modelled
    as follows.

    - [str] is a Rocq [string]; every character is a code point below 256.
      In that range the decimal digits of the [re] module's [\d] and of
      [int()] are exactly ['0'..'9'].
    - a JSON document as returned by [json.load] is a [json] tree; a [dict]
      is an association list in insertion order.
    - an exception is a value of [exn]; code that may raise returns [res].
    - the database connection is a record of tables, sequences and
      registered views, passed explicitly. *)

From Stdlib Require Import ZArith List String Ascii Bool Lia QArith
  Permutation.
Import ListNotations.
Open Scope string_scope.
Open Scope Z_scope.
Set Warnings "-register-all".

(* ------------------------------------------------------------------ *)
(** ** Exceptions *)

Inductive exn : Type :=
| ValueError
| TypeError
| OverflowError
| AttributeError
| OSError
| ConversionError    (* duckdb.ConversionException *)
| InvalidInputError  (* duckdb.InvalidInputException *)
| CatalogError.      (* duckdb.CatalogException *)

Inductive res (A : Type) : Type :=
| Ok (a : A)
| Raise (e : exn).

Arguments Ok {A} a.
Arguments Raise {A} e.

Definition bind {A B : Type} (m : res A) (k : A -> res B) : res B :=
  match m with
  | Ok a => k a
  | Raise e => Raise e
  end.

Notation "x <- m ;; k" := (bind m (fun x => k))
  (at level 61, m at next level, right associativity).

(* ------------------------------------------------------------------ *)
(** ** Characters and text *)

Definition newline : ascii := ascii_of_nat 10.

Definition is_digit (c : ascii) : bool :=
  let n := nat_of_ascii c in (48 <=? n)%nat && (n <=? 57)%nat.

Definition digit_value (c : ascii) : Z := Z.of_nat (nat_of_ascii c) - 48.

Definition digit_char (n : Z) : ascii := ascii_of_nat (Z.to_nat (48 + n)).

Fixpoint all_digits (s : string) : bool :=
  match s with
  | EmptyString => true
  | String c s' => is_digit c && all_digits s'
  end.

(** [int(s)] on a run of decimal digits. *)
Fixpoint int_acc (acc : Z) (s : string) : Z :=
  match s with
  | EmptyString => acc
  | String c s' => int_acc (10 * acc + digit_value c) s'
  end.

Definition int_of_digits (s : string) : Z := int_acc 0 s.

(** [needle in hay] for two strings. *)
Fixpoint contains (needle hay : string) : bool :=
  prefix needle hay ||
  match hay with
  | EmptyString => false
  | String _ hay' => contains needle hay'
  end.

Definition startswith (s p : string) : bool := prefix p s.

(** [s.split(sep)] for a one-character separator. *)
Fixpoint split_on (sep : ascii) (s : string) : list string :=
  match s with
  | EmptyString => [EmptyString]
  | String c s' =>
      if Ascii.eqb c sep then EmptyString :: split_on sep s'
      else match split_on sep s' with
           | [] => [String c EmptyString]
           | p :: ps => String c p :: ps
           end
  end.

(** [s[:n]] *)
Fixpoint take (n : nat) (s : string) : string :=
  match n, s with
  | S k, String c s' => String c (take k s')
  | _, _ => EmptyString
  end.

(** [s.rfind(".")]: index of the last dot. *)
Fixpoint rfind_dot (s : string) : option nat :=
  match s with
  | EmptyString => None
  | String c s' =>
      match rfind_dot s' with
      | Some i => Some (S i)
      | None => if Ascii.eqb c "." then Some O else None
      end
  end.

(** [PurePath.stem] of a file name: the name without its last suffix; a dot
    in first or last position starts no suffix. *)
Definition stem (name : string) : string :=
  match rfind_dot name with
  | Some i =>
      if (0 <? i)%nat && (i <? String.length name - 1)%nat
      then take i name
      else name
  | None => name
  end.

(** Decimal rendering with zero padding, as [%m], [%d], [%H], [%M], [%S]
    (two places) and [%Y] (four places) print the fields of a datetime. *)
Definition pad2 (n : Z) : string :=
  String (digit_char (n / 10)) (String (digit_char (n mod 10)) EmptyString).

Definition pad4 (n : Z) : string :=
  pad2 (n / 100) ++ pad2 (n mod 100).

(** Decimal text of a non-negative integer, as [str(n)] and the f-string
    [{station_id}] give it. *)
Fixpoint decimal_fuel (fuel : nat) (n : Z) (acc : string) : string :=
  match fuel with
  | O => acc
  | S k =>
      let acc' := String (digit_char (n mod 10)) acc in
      if n <? 10 then acc' else decimal_fuel k (n / 10) acc'
  end.

Definition decimal (n : Z) : string :=
  decimal_fuel (S (Z.to_nat (Z.log2 n))) n EmptyString.

(* ------------------------------------------------------------------ *)
(** ** Regular expressions

    The fragment of Python's [re] syntax the program uses, with a
    backtracking matcher that lists the ways to match in the order [re]
    tries them.  [Eol] is [$]: without [re.MULTILINE] it matches at the end
    of the text and also just before a newline that ends the text. *)

Inductive regex : Type :=
| Digit                          (* \d *)
| Chr (c : ascii)                (* a literal character *)
| Bol                            (* ^ *)
| Eol                            (* $ *)
| Cat (r1 r2 : regex)            (* r1 r2 *)
| Times (n : nat) (r : regex)    (* r{n} *)
| Plus (r : regex)               (* r+, greedy *)
| Group (r : regex).             (* ( r ) *)

Infix "@@" := Cat (at level 60, right associativity).

Record mstate : Type := MState {
  m_pos : nat;               (* characters consumed so far *)
  m_rest : string;           (* text still to match *)
  m_groups : list string     (* groups captured so far, in order *)
}.

Definition advance (st : mstate) (s' : string) : mstate :=
  MState (S (m_pos st)) s' (m_groups st).

Definition at_eol (s : string) : bool :=
  match s with
  | EmptyString => true
  | String c EmptyString => Ascii.eqb c newline
  | _ => false
  end.

Definition capture (st st' : mstate) : mstate :=
  MState (m_pos st') (m_rest st')
         (m_groups st' ++ [take (m_pos st' - m_pos st) (m_rest st)])%list.

Fixpoint rmatch (r : regex) (st : mstate) : list mstate :=
  match r with
  | Digit =>
      match m_rest st with
      | String c s' => if is_digit c then [advance st s'] else []
      | EmptyString => []
      end
  | Chr a =>
      match m_rest st with
      | String c s' => if Ascii.eqb c a then [advance st s'] else []
      | EmptyString => []
      end
  | Bol => if (m_pos st =? 0)%nat then [st] else []
  | Eol => if at_eol (m_rest st) then [st] else []
  | Cat r1 r2 => flat_map (rmatch r2) (rmatch r1 st)
  | Times n r1 =>
      (fix times (k : nat) (s : mstate) : list mstate :=
         match k with
         | O => [s]
         | S k' => flat_map (times k') (rmatch r1 s)
         end) n st
  | Plus r1 =>
      (fix plus (fuel : nat) (s : mstate) : list mstate :=
         match fuel with
         | O => []
         | S fuel' => flat_map (fun s' => (plus fuel' s' ++ [s'])%list) (rmatch r1 s)
         end) (S (String.length (m_rest st))) st
  | Group r1 => map (capture st) (rmatch r1 st)
  end.

(** [re.match(pattern, s)]: the groups of the first way to match at the
    start of [s], or [None]. *)
Definition re_match (r : regex) (s : string) : option (list string) :=
  match rmatch r (MState 0 s []) with
  | [] => None
  | st :: _ => Some (m_groups st)
  end.

(** [r'^(\d+)_'] *)
Definition filename_pattern : regex :=
  Bol @@ Group (Plus Digit) @@ Chr "_".

(** [r'^(\d{2})-(\d{2})-(\d{4}) (\d{2}):(\d{2})$'] *)
Definition datetime_pattern : regex :=
  Bol @@ Group (Times 2 Digit) @@ Chr "-" @@ Group (Times 2 Digit) @@ Chr "-"
      @@ Group (Times 4 Digit) @@ Chr " " @@ Group (Times 2 Digit) @@ Chr ":"
      @@ Group (Times 2 Digit) @@ Eol.

(** [r'^\d{2}-\d{2}-\d{4} \d{2}:\d{2}$'] *)
Definition row_pattern : regex :=
  Bol @@ Times 2 Digit @@ Chr "-" @@ Times 2 Digit @@ Chr "-"
      @@ Times 4 Digit @@ Chr " " @@ Times 2 Digit @@ Chr ":"
      @@ Times 2 Digit @@ Eol.

(* ------------------------------------------------------------------ *)
(** ** [datetime.datetime] *)

Module Datetime.

Record t : Type := mk {
  year : Z; month : Z; day : Z; hour : Z; minute : Z; second : Z
}.

Definition is_leap (y : Z) : bool :=
  (y mod 4 =? 0) && (negb (y mod 100 =? 0) || (y mod 400 =? 0)).

Definition days_in_month (y m : Z) : Z :=
  if m =? 2 then (if is_leap y then 29 else 28)
  else if (m =? 4) || (m =? 6) || (m =? 9) || (m =? 11) then 30
  else 31.

Definition valid_date (y m d : Z) : bool :=
  (1 <=? y) && (y <=? 9999) && (1 <=? m) && (m <=? 12)
  && (1 <=? d) && (d <=? days_in_month y m).

(** [datetime(year, month, day, hour, minute)] *)
Definition make (y m d h mi : Z) : res t :=
  if valid_date y m d && (0 <=? h) && (h <=? 23) && (0 <=? mi) && (mi <=? 59)
  then Ok (mk y m d h mi 0)
  else Raise ValueError.

(** The calendar day after [(y, m, d)]. *)
Definition next_day (y m d : Z) : Z * Z * Z :=
  if d <? days_in_month y m then (y, m, d + 1)
  else if m <? 12 then (y, m + 1, 1)
  else (y + 1, 1, 1).

(** [dt + timedelta(days=1)]; a result after year 9999 is an
    [OverflowError]. *)
Definition add_one_day (dt : t) : res t :=
  let '(y, m, d) := next_day (year dt) (month dt) (day dt) in
  if y <=? 9999 then Ok (mk y m d (hour dt) (minute dt) (second dt))
  else Raise OverflowError.

(** [dt.strftime("%Y-%m-%d %H:%M:%S")] *)
Definition strftime (dt : t) : string :=
  pad4 (year dt) ++ "-" ++ pad2 (month dt) ++ "-" ++ pad2 (day dt) ++ " "
  ++ pad2 (hour dt) ++ ":" ++ pad2 (minute dt) ++ ":" ++ pad2 (second dt).

End Datetime.

(* ------------------------------------------------------------------ *)
(** ** Floating-point numbers and JSON values *)

(** A Python [float] read from decimal text or from an integer: [FDec neg m e]
    is the binary64 number nearest to [m * 10^e], negated when [neg] is set.
    Rounding to binary64 is not modelled; the decimal it rounds is. *)
Inductive pyfloat : Type :=
| FNan
| FInf (neg : bool)
| FDec (neg : bool) (m : Z) (e : Z).


Inductive json : Type :=
| JNull
| JBool (b : bool)
| JInt (n : Z)
| JFloat (f : pyfloat)
| JStr (s : string)
| JArr (l : list json)
| JObj (d : list (string * json)).

Definition dict : Type := list (string * json).

Fixpoint lookup {A : Type} (k : string) (d : list (string * A)) : option A :=
  match d with
  | [] => None
  | (k', v) :: d' => if String.eqb k k' then Some v else lookup k d'
  end.

(** [d.get(k, default)] *)
Definition dict_get (k : string) (d : dict) (default : json) : json :=
  match lookup k d with
  | Some v => v
  | None => default
  end.

(** [d[k] = v]: an existing key keeps its place, a new one goes last. *)
Fixpoint dict_set {A : Type} (k : string) (v : A) (d : list (string * A))
  : list (string * A) :=
  match d with
  | [] => [(k, v)]
  | (k', v') :: d' =>
      if String.eqb k k' then (k', v) :: d' else (k', v') :: dict_set k v d'
  end.

(** *** [float(text)] *)

(** Characters [float()] strips from both ends: the C locale's white space,
    and the two Latin-1 spaces (NEL, NBSP) it first turns into blanks. *)
Definition is_space (c : ascii) : bool :=
  let n := nat_of_ascii c in
  ((9 <=? n) && (n <=? 13) || (n =? 32) || (n =? 133) || (n =? 160))%nat.

Fixpoint lstrip (cs : list ascii) : list ascii :=
  match cs with
  | c :: cs' => if is_space c then lstrip cs' else cs
  | [] => []
  end.

Definition strip (cs : list ascii) : list ascii :=
  rev (lstrip (rev (lstrip cs))).

(** PEP 515: an underscore may stand only between two digits; the text is
    parsed with the underscores taken out. *)
Fixpoint drop_underscores (prev : ascii) (cs : list ascii)
  : option (list ascii) :=
  match cs with
  | [] => if Ascii.eqb prev "_" then None else Some []
  | c :: cs' =>
      if Ascii.eqb c "_" then
        if is_digit prev then drop_underscores c cs' else None
      else if Ascii.eqb prev "_" && negb (is_digit c) then None
      else option_map (cons c) (drop_underscores c cs')
  end.

Fixpoint span_digits (cs : list ascii) : list ascii * list ascii :=
  match cs with
  | c :: cs' =>
      if is_digit c then let '(ds, r) := span_digits cs' in (c :: ds, r)
      else ([], cs)
  | [] => ([], [])
  end.

Definition lower (c : ascii) : ascii :=
  let n := nat_of_ascii c in
  if ((65 <=? n) && (n <=? 90))%nat then ascii_of_nat (n + 32) else c.

Definition digits_value (ds : list ascii) : Z :=
  fold_left (fun acc c => 10 * acc + digit_value c) ds 0.

Definition take_sign (cs : list ascii) : bool * list ascii :=
  match cs with
  | c :: cs' =>
      if Ascii.eqb c "-" then (true, cs')
      else if Ascii.eqb c "+" then (false, cs')
      else (false, cs)
  | [] => (false, [])
  end.

(** The exponent part [e[+-]digits]; text that does not end in a complete
    exponent is not a number. *)
Definition parse_exponent (cs : list ascii) : option Z :=
  match cs with
  | [] => Some 0
  | c :: cs' =>
      if Ascii.eqb (lower c) "e" then
        let '(neg, r) := take_sign cs' in
        match span_digits r with
        | (d :: ds, []) =>
            let n := digits_value (d :: ds) in
            Some (if neg then - n else n)
        | _ => None
        end
      else None
  end.

Definition parse_decimal (neg : bool) (cs : list ascii) : option pyfloat :=
  let '(ip, r1) := span_digits cs in
  let '(fp, r2) :=
    match r1 with
    | c :: r => if Ascii.eqb c "." then span_digits r else ([], r1)
    | [] => ([], [])
    end in
  match (ip ++ fp)%list with
  | [] => None
  | ds =>
      match parse_exponent r2 with
      | Some e => Some (FDec neg (digits_value ds) (e - Z.of_nat (List.length fp)))
      | None => None
      end
  end.

Definition float_of_text (s : string) : option pyfloat :=
  match drop_underscores " " (list_ascii_of_string s) with
  | None => None
  | Some cs =>
      let '(neg, body) := take_sign (strip cs) in
      let word := string_of_list_ascii (map lower body) in
      if String.eqb word "inf" || String.eqb word "infinity" then Some (FInf neg)
      else if String.eqb word "nan" then Some FNan
      else parse_decimal neg body
  end.

(** [float(value)] for a value read from JSON.  An integer too large for
    binary64 is an [OverflowError]; a list, a dict or [None] a
    [TypeError]; text that is no number a [ValueError]. *)
Definition py_float (v : json) : res pyfloat :=
  match v with
  | JStr s =>
      match float_of_text s with
      | Some f => Ok f
      | None => Raise ValueError
      end
  | JInt n =>
      if Z.abs n <? 2 ^ 1024 - 2 ^ 970
      then Ok (FDec (n <? 0) (Z.abs n) 0)
      else Raise OverflowError
  | JFloat f => Ok f
  | JBool b => Ok (FDec false (if b then 1 else 0) 0)
  | JNull | JArr _ | JObj _ => Raise TypeError
  end.

(** [[None, '', '-', '----', 'N/A', 'NaN']] *)
Definition missing_tokens : list json :=
  [JNull; JStr ""; JStr "-"; JStr "----"; JStr "N/A"; JStr "NaN"].

(** [tok == v] where [tok] is [None] or a [str]: equal only to itself. *)
Definition token_eqb (tok v : json) : bool :=
  match tok, v with
  | JNull, JNull => true
  | JStr a, JStr b => String.eqb a b
  | _, _ => false
  end.

(** Lines 179-185: the value of a monitor field. *)
Definition coerce_value (value : json) : res (option pyfloat) :=
  if existsb (fun tok => token_eqb tok value) missing_tokens then Ok None
  else match py_float value with
       | Ok f => Ok (Some f)
       | Raise ValueError | Raise TypeError => Ok None
       | Raise e => Raise e
       end.

(* ------------------------------------------------------------------ *)
(** ** File names and timestamps *)

(** [parse_filename(filename)] *)
Definition parse_filename (filename : string) : option Z :=
  match re_match filename_pattern filename with
  | Some (g :: _) => Some (int_of_digits g)
  | _ => None
  end.

(** The body of [normalize_datetime] inside its [try]: [re.match] on a
    value that is not a [str] is a [TypeError]. *)
Definition normalize_datetime_body (dt_str : json) : res (option string) :=
  match dt_str with
  | JStr s =>
      match re_match datetime_pattern s with
      | None => Ok None
      | Some groups =>
          match map int_of_digits groups with
          | [day; month; year; hour; minute] =>
              dt <- (if hour =? 24
                     then d0 <- Datetime.make year month day 0 minute ;;
                          Datetime.add_one_day d0
                     else Datetime.make year month day hour minute) ;;
              Ok (Some (Datetime.strftime dt))
          | _ => Raise ValueError
          end
      end
  | _ => Raise TypeError
  end.

(** [normalize_datetime(dt_str)]: [except Exception] turns every exception
    of the body into [None]. *)
Definition normalize_datetime (dt_str : json) : option string :=
  match normalize_datetime_body dt_str with
  | Ok r => r
  | Raise _ => None
  end.

(** Lines 283-284 of [process_json_file]: the station's display name, from
    the file's name and the station id [parse_filename] gave. *)
Definition default_station_label (station_id : Z) : string :=
  "Estaci" ++ String (ascii_of_nat 243) "n " ++ decimal station_id.

Definition station_name_of (filename : string) (station_id : Z) : string :=
  let parts := split_on "_" (stem filename) in
  if (1 <? List.length parts)%nat then nth 1 parts EmptyString
  else default_station_label station_id.

(* ------------------------------------------------------------------ *)
(** ** The database

    The tables of [create_database], the two sequences, and the views
    registered on the connection.  A sequence holds the value [nextval]
    returns next, and its values are taken to fit the [INTEGER] id columns.
    Timestamps are kept as their canonical text [YYYY-MM-DD HH:MM:SS];
    clock readings are integers. *)

Record Station : Type := mkStation {
  st_id : Z;
  st_name : string;
  st_created_at : Z
}.

Record Monitor : Type := mkMonitor {
  mon_id : Z;
  mon_code : string;
  mon_name : json;
  mon_unit : json
}.

Record Measurement : Type := mkMeasurement {
  ms_id : Z;
  ms_station_id : Z;
  ms_monitor_code : string;
  ms_timestamp : string;
  ms_value : option pyfloat;
  ms_report_type : string;
  ms_granularity : Z;
  ms_created_at : Z
}.

(** A row of the data frame [parse_json_to_polars] returns. *)
Record Reading : Type := mkReading {
  rd_station_id : Z;
  rd_monitor_code : string;
  rd_timestamp : string;
  rd_value : option pyfloat
}.

(** A row of the frame after [with_columns] (lines 231-235). *)
Record Staged : Type := mkStaged {
  sg_reading : Reading;
  sg_report_type : string;
  sg_granularity : Z;
  sg_created_at : Z
}.

(** An entry of [monitors_dict]. *)
Record MonitorInfo : Type := mkMonitorInfo {
  mi_code : string;
  mi_name : json;
  mi_unit : json
}.

Record DB : Type := mkDB {
  stations : list Station;
  monitors : list Monitor;
  monitor_seq : Z;
  measurements : list Measurement;
  measurement_seq : Z;
  views : list (string * list Staged)
}.

(** [create_database()] on a store that does not exist yet; on an existing
    one every statement is [IF NOT EXISTS] and changes nothing. *)
Definition empty_db : DB := mkDB [] [] 1 [] 1 [].

Definition create_database (store : option DB) : DB :=
  match store with
  | Some db => db
  | None => empty_db
  end.

(** The range of an [INTEGER] column. *)
Definition in_int32 (n : Z) : bool :=
  (- 2 ^ 31 <=? n) && (n <? 2 ^ 31).

(** Lines 211-215.  A station id outside [INTEGER] is a conversion error. *)
Definition upsert_station (db : DB) (station_id : Z) (station_name : string)
    (now : Z) : res DB :=
  if in_int32 station_id then
    let tbl := stations db in
    let tbl' :=
      if existsb (fun s => st_id s =? station_id) tbl
      then map (fun s => if st_id s =? station_id
                         then mkStation (st_id s) station_name (st_created_at s)
                         else s) tbl
      else (tbl ++ [mkStation station_id station_name now])%list in
    Ok (mkDB tbl' (monitors db) (monitor_seq db) (measurements db)
             (measurement_seq db) (views db))
  else Raise ConversionError.

(** Lines 220-226, one pass of the loop: [nextval('monitor_seq')] is
    evaluated for the proposed row whether or not the row is inserted. *)
Definition upsert_monitor (db : DB) (minfo : MonitorInfo) : DB :=
  let new_id := monitor_seq db in
  let tbl := monitors db in
  let tbl' :=
    if existsb (fun m => String.eqb (mon_code m) (mi_code minfo)) tbl
    then map (fun m => if String.eqb (mon_code m) (mi_code minfo)
                       then mkMonitor (mon_id m) (mon_code m)
                                      (mi_name minfo) (mi_unit minfo)
                       else m) tbl
    else (tbl ++ [mkMonitor new_id (mi_code minfo)
                            (mi_name minfo) (mi_unit minfo)])%list in
  mkDB (stations db) tbl' (new_id + 1) (measurements db)
       (measurement_seq db) (views db).

(** The columns of [idx_measurements_unique]: station, monitor code,
    timestamp, report type. *)
Definition key : Type := (Z * string * string * string)%type.

Definition key_eqb (a b : key) : bool :=
  let '(s1, c1, t1, r1) := a in
  let '(s2, c2, t2, r2) := b in
  (s1 =? s2) && String.eqb c1 c2 && String.eqb t1 t2 && String.eqb r1 r2.

Definition row_key (m : Measurement) : key :=
  (ms_station_id m, ms_monitor_code m, ms_timestamp m, ms_report_type m).

Definition staged_key (r : Staged) : key :=
  (rd_station_id (sg_reading r), rd_monitor_code (sg_reading r),
   rd_timestamp (sg_reading r), sg_report_type r).

(** A proposed row conflicts with a stored row that holds its key. *)
Definition same_key (r : Staged) (m : Measurement) : bool :=
  key_eqb (row_key m) (staged_key r).

(** Whether a list of keys holds one key twice. *)
Fixpoint repeats (ks : list key) : bool :=
  match ks with
  | [] => false
  | k :: ks' => existsb (key_eqb k) ks' || repeats ks'
  end.

(** One proposed row of the [INSERT ... ON CONFLICT DO UPDATE] of lines
    243-261: merged into the row that holds its key, or inserted with the
    id drawn for it. *)
Definition upsert_measurement (acc : list Measurement * Z) (r : Staged)
  : list Measurement * Z :=
  let '(tbl, seq) := acc in
  let tbl' :=
    if existsb (same_key r) tbl
    then map (fun m => if same_key r m
                       then mkMeasurement (ms_id m) (ms_station_id m)
                              (ms_monitor_code m) (ms_timestamp m)
                              (rd_value (sg_reading r)) (ms_report_type m)
                              (sg_granularity r) (sg_created_at r)
                       else m) tbl
    else (tbl ++ [mkMeasurement seq (rd_station_id (sg_reading r))
                    (rd_monitor_code (sg_reading r))
                    (rd_timestamp (sg_reading r))
                    (rd_value (sg_reading r)) (sg_report_type r)
                    (sg_granularity r) (sg_created_at r)])%list in
  (tbl', seq + 1).

(** A proposed row whose station id and granularity fit their [INTEGER]
    columns. *)
Definition fits_integer_columns (r : Staged) : bool :=
  in_int32 (rd_station_id (sg_reading r)) && in_int32 (sg_granularity r).

(** The statement of lines 243-261 run against the registered view.  A
    station id or a granularity outside [INTEGER] is a conversion error.
    The engine refuses a statement that proposes one key twice ("ON
    CONFLICT DO UPDATE can not update the same row twice in the same
    command").  Otherwise the rows are proposed in the frame's order.  A
    statement that raises leaves table and sequence as they were. *)
Definition insert_measurements (db : DB) (view : string) : res DB :=
  match lookup view (views db) with
  | None => Raise CatalogError
  | Some rows =>
      if negb (forallb fits_integer_columns rows) then Raise ConversionError
      else if repeats (map staged_key rows) then Raise InvalidInputError
      else
        let '(tbl, seq) :=
          fold_left upsert_measurement rows
                    (measurements db, measurement_seq db) in
        Ok (mkDB (stations db) (monitors db) (monitor_seq db) tbl seq
                 (views db))
  end.

(** [conn.register(name, frame)] and [conn.unregister(name)] *)
Definition register (name : string) (frame : list Staged) (db : DB) : DB :=
  mkDB (stations db) (monitors db) (monitor_seq db) (measurements db)
       (measurement_seq db) (dict_set name frame (views db)).

Definition unregister (name : string) (db : DB) : DB :=
  mkDB (stations db) (monitors db) (monitor_seq db) (measurements db)
       (measurement_seq db)
       (filter (fun v => negb (String.eqb (fst v) name)) (views db)).

Definition registered (name : string) (db : DB) : bool :=
  existsb (fun v => String.eqb (fst v) name) (views db).

Definition temp_view : string := "temp_measurements".

(** [insert_data_duckdb(conn, measurements_df, station_id, station_name,
    monitors_dict, report_type, granularity)]; [now] is the clock reading
    of the call. *)
Definition insert_data_duckdb (db : DB) (measurements_df : list Reading)
    (station_id : Z) (station_name : string)
    (monitors_dict : list (string * MonitorInfo))
    (report_type : string) (granularity : Z) (now : Z) : res DB :=
  db1 <- upsert_station db station_id station_name now ;;
  let db2 := fold_left upsert_monitor (map snd monitors_dict) db1 in
  match measurements_df with
  | [] => Ok db2
  | _ :: _ =>
      let frame :=
        map (fun r => mkStaged r report_type granularity now) measurements_df in
      let db3 := register temp_view frame db2 in
      match insert_measurements db3 temp_view with
      | Ok db4 => Ok (unregister temp_view db4)
      | Raise _ => Ok db3
      end
  end.

(* ------------------------------------------------------------------ *)
(** ** Rows, files and the run *)

Section Ingestion.

(** [str(v)] of a value that is not a [str] (a number, [None], a list, a
    dict): the interpreter's text for it.  Nothing below depends on what
    that text is. *)
Variable repr : json -> string.

Definition py_str (v : json) : string :=
  match v with
  | JStr s => s
  | _ => repr v
  end.

Definition summary_keywords : list string :=
  ["Summary"; "Minimum"; "MinDate"; "MinTime"; "Maximum"; "MaxDate";
   "MaxTime"; "Avg"; "Num"; "DataPrecent"; "STD"; "Count"].

(** [is_valid_measurement_row(row)]; [row.get] on a value that is not a
    dict is an [AttributeError]. *)
Definition is_valid_measurement_row (row : json) : res bool :=
  match row with
  | JObj d =>
      let datetime_val := dict_get "datetime" d (JStr "") in
      if existsb (fun keyword => contains keyword (py_str datetime_val))
                 summary_keywords
      then Ok false
      else match re_match row_pattern (py_str datetime_val) with
           | None => Ok false
           | Some _ => Ok true
           end
  | _ => Raise AttributeError
  end.

(** Lines 136-146: the list of rows of a document. *)
Definition is_list (v : json) : bool :=
  match v with
  | JArr _ => true
  | _ => false
  end.

Definition find_rows (json_data : json) : option (list json) :=
  match json_data with
  | JArr rows => Some rows
  | JObj d =>
      match find (fun key => match lookup key d with
                             | Some v => is_list v
                             | None => false
                             end) ["data"; "Data"; "records"; "Records"] with
      | Some key =>
          match lookup key d with
          | Some (JArr rows) => Some rows
          | _ => None
          end
      | None => None
      end
  | _ => None
  end.

(** Line 151: the list comprehension; the first row that raises ends it. *)
Fixpoint filter_valid (rows : list json) : res (list json) :=
  match rows with
  | [] => Ok []
  | row :: rows' =>
      ok <- is_valid_measurement_row row ;;
      rest <- filter_valid rows' ;;
      Ok (if ok then row :: rest else rest)
  end.

Definition extraction : Type := list Reading * list (string * MonitorInfo).

Fixpoint fold_res {A S : Type} (f : S -> A -> res S) (l : list A) (s : S)
  : res S :=
  match l with
  | [] => Ok s
  | a :: l' => s' <- f s a ;; fold_res f l' s'
  end.

(** Lines 170-176: the monitor of a field, registered on first sight. *)
Definition register_monitor (code_map : dict) (monitor_code : string)
    (monitors_dict : list (string * MonitorInfo))
  : res (list (string * MonitorInfo)) :=
  match lookup monitor_code monitors_dict with
  | Some _ => Ok monitors_dict
  | None =>
      match dict_get monitor_code code_map (JObj []) with
      | JObj info =>
          Ok (monitors_dict ++
              [(monitor_code,
                mkMonitorInfo monitor_code
                  (dict_get "label" info (JStr monitor_code))
                  (dict_get "unit" info (JStr "")))])%list
      | _ => Raise AttributeError
      end
  end.

(** Lines 165-192: one field of a row. *)
Definition extract_field (code_map : dict) (station_id : Z)
    (timestamp : string) (acc : extraction) (item : string * json)
  : res extraction :=
  let '(key, value) := item in
  if startswith key "S_" && negb (String.eqb key "datetime") then
    monitors_dict <- register_monitor code_map key (snd acc) ;;
    v <- coerce_value value ;;
    Ok ((fst acc ++ [mkReading station_id key timestamp v])%list,
        monitors_dict)
  else Ok acc.

(** Lines 158-192: one row of [valid_rows]. *)
Definition extract_row (code_map : dict) (station_id : Z)
    (acc : extraction) (row : json) : res extraction :=
  match row with
  | JObj d =>
      match normalize_datetime (dict_get "datetime" d (JStr "")) with
      | None => Ok acc
      | Some timestamp =>
          fold_res (extract_field code_map station_id timestamp) d acc
      end
  | _ => Raise AttributeError
  end.

(** [parse_json_to_polars(json_data, code_map, station_id)]: the rows of
    the frame and [monitors_dict].  Building the frame from the rows and
    reading the timestamp column back are left to the frame library. *)
Definition parse_json_to_polars (json_data : json) (code_map : dict)
    (station_id : Z) : res extraction :=
  match find_rows json_data with
  | None => Ok ([], [])
  | Some rows =>
      valid_rows <- filter_valid rows ;;
      fold_res (extract_row code_map station_id) valid_rows ([], [])
  end.

(** What opening and reading a file as JSON gives. *)
Inductive file_content : Type :=
| Unreadable                 (* [open] or decoding raises *)
| Malformed                  (* [json.JSONDecodeError] *)
| Parsed (data : json).

(** The two fields [process_json_file] reads from the run configuration;
    [None] is an absent key. *)
Record Config : Type := mkConfig {
  cfg_report_type : option string;
  cfg_granularity : option Z
}.

Definition report_type_of (config : Config) : string :=
  match cfg_report_type config with
  | Some t => t
  | None => "Average"
  end.

Definition granularity_of (config : Config) : Z :=
  match cfg_granularity config with
  | Some g => g
  | None => 60
  end.

(** [process_json_file(filepath, conn, code_map, config)]: [name] is
    [filepath.name], [content] what reading the file gives. *)
Definition process_json_file (name : string) (content : file_content)
    (db : DB) (code_map : dict) (config : Config) (now : Z) : res DB :=
  match parse_filename name with
  | None => Ok db
  | Some station_id =>
      let station_name := station_name_of name station_id in
      match content with
      | Unreadable => Raise OSError
      | Malformed => Ok db
      | Parsed data =>
          ex <- parse_json_to_polars data code_map station_id ;;
          match fst ex with
          | [] => Ok db
          | _ :: _ =>
              insert_data_duckdb db (fst ex) station_id station_name (snd ex)
                (report_type_of config) (granularity_of config) now
          end
      end
  end.

(** *** [main] *)

Definition endswith (s suffix : string) : bool :=
  let n := String.length s in
  let k := String.length suffix in
  (k <=? n)%nat && String.eqb (substring (n - k) k s) suffix.

(** [sorted(json_files)]: insertion into a list ordered by name. *)
Fixpoint insert_sorted {A : Type} (f : string * A) (l : list (string * A))
  : list (string * A) :=
  match l with
  | [] => [f]
  | g :: l' =>
      if String.leb (fst f) (fst g) then f :: l
      else g :: insert_sorted f l'
  end.

Definition sorted {A : Type} (l : list (string * A)) : list (string * A) :=
  fold_right insert_sorted [] l.

(** What [main] finds when it starts. *)
Record World : Type := mkWorld {
  w_store : option DB;                  (* air_quality.duckdb *)
  w_setup : res (Config * dict);        (* the configuration and code map
                                           as read, or the exception
                                           reading them raises *)
  w_downloads : option (list (string * file_content));
                                        (* the entries of downloads/;
                                           [None] when it does not exist *)
  w_clock : Z
}.

Inductive outcome : Type :=
| SysExit (code : Z)                         (* [sys.exit(code)] *)
| Uncaught (e : exn)                         (* a traceback *)
| Completed (db : DB) (success_count error_count : nat).

(** The exit status of the process. *)
Definition exit_code (o : outcome) : Z :=
  match o with
  | SysExit code => code
  | Uncaught _ => 1
  | Completed _ _ _ => 0
  end.

(** Lines 344-352: one pass of the loop over the files.  A file whose
    processing raises is counted and the loop goes on. *)
Definition process_one (code_map : dict) (config : Config) (now : Z)
    (st : DB * nat * nat) (file : string * file_content) : DB * nat * nat :=
  let '(db, success_count, error_count) := st in
  match process_json_file (fst file) (snd file) db code_map config now with
  | Ok db' => (db', S success_count, error_count)
  | Raise _ => (db, success_count, S error_count)
  end.

Definition process_all (files : list (string * file_content)) (db : DB)
    (code_map : dict) (config : Config) (now : Z) : DB * nat * nat :=
  fold_left (process_one code_map config now) files (db, 0%nat, 0%nat).

(** [main()] *)
Definition main (w : World) : outcome :=
  let conn := create_database (w_store w) in
  match w_setup w with
  | Raise e => Uncaught e
  | Ok (config, code_map) =>
      match w_downloads w with
      | None => SysExit 1
      | Some entries =>
          let json_files :=
            filter (fun f => endswith (fst f) ".json") entries in
          match json_files with
          | [] => SysExit 0
          | _ :: _ =>
              let '(db, ok, err) :=
                process_all (sorted json_files) conn code_map config
                            (w_clock w) in
              Completed db ok err
          end
      end
  end.

End Ingestion.

(* ------------------------------------------------------------------ *)
(** ** The code map *)

(** [station_info.get('codes', {})], to be iterated with [.items()]: a
    station entry or a [codes] value that is not a dict is an
    [AttributeError]. *)
Definition station_codes (station_info : json) : res dict :=
  match station_info with
  | JObj info =>
      match dict_get "codes" info (JObj []) with
      | JObj codes => Ok codes
      | _ => Raise AttributeError
      end
  | _ => Raise AttributeError
  end.

(** The inner loop of lines 82-83. *)
Definition add_codes (flat_map codes : dict) : dict :=
  fold_left (fun m item => dict_set (fst item) (snd item) m) codes flat_map.

(** [load_code_map()]: [file] is what reading [config/code_title_map.json]
    gives, [None] when the path does not exist.  A document that does not
    parse is a [json.JSONDecodeError], a [ValueError]. *)
Definition load_code_map (file : option file_content) : res dict :=
  match file with
  | None => Ok []
  | Some Unreadable => Raise OSError
  | Some Malformed => Raise ValueError
  | Some (Parsed data) =>
      match data with
      | JObj d =>
          match dict_get "stations" d (JObj []) with
          | JObj station_entries =>
              fold_res (fun flat_map station =>
                          codes <- station_codes (snd station) ;;
                          Ok (add_codes flat_map codes))
                       station_entries []
          | _ => Raise AttributeError
          end
      | _ => Raise AttributeError
      end
  end.

(* ------------------------------------------------------------------ *)
(** ** Vocabulary of the statements

    Definitions the theorems are stated with.  They describe texts, keys
    and stores; none of them is part of the program. *)

(** *** Timestamps *)

(** The text [re.match] accepts for the two timestamp patterns, read off
    character by character, with the five groups it captures. *)
Definition timestamp_shape (s : string) : option (list string) :=
  match s with
  | String d1 (String d2 (String c1 (String m1 (String m2 (String c2
    (String y1 (String y2 (String y3 (String y4 (String c3
    (String h1 (String h2 (String c4 (String n1 (String n2 tail))))))))))))))) =>
      if is_digit d1 && is_digit d2 && Ascii.eqb c1 "-"
         && is_digit m1 && is_digit m2 && Ascii.eqb c2 "-"
         && is_digit y1 && is_digit y2 && is_digit y3 && is_digit y4
         && Ascii.eqb c3 " "
         && is_digit h1 && is_digit h2 && Ascii.eqb c4 ":"
         && is_digit n1 && is_digit n2 && at_eol tail
      then Some [String d1 (String d2 ""); String m1 (String m2 "");
                 String y1 (String y2 (String y3 (String y4 "")));
                 String h1 (String h2 ""); String n1 (String n2 "")]
      else None
  | _ => None
  end.

(** A field of [width] decimal digits. *)
Definition field (width : nat) (s : string) : bool :=
  (String.length s =? width)%nat && all_digits s.

(** The text DD-MM-YYYY HH:MM with the given fields. *)
Definition timestamp_text (dd mm yyyy hh mi : string) : string :=
  dd ++ "-" ++ mm ++ "-" ++ yyyy ++ " " ++ hh ++ ":" ++ mi.

(** The text YYYY-MM-DD HH:MM:00 with the given fields. *)
Definition canonical_text (yyyy mm dd hh mi : string) : string :=
  yyyy ++ "-" ++ mm ++ "-" ++ dd ++ " " ++ hh ++ ":" ++ mi ++ ":00".

(** The exact form DD-MM-YYYY HH:MM. *)
Definition exact_form (s : string) : Prop :=
  exists dd mm yyyy hh mi,
    field 2 dd = true /\ field 2 mm = true /\ field 4 yyyy = true
    /\ field 2 hh = true /\ field 2 mi = true
    /\ s = timestamp_text dd mm yyyy hh mi.

(** A text followed by one newline. *)
Definition with_newline (s : string) : string := s ++ String newline "".

(** A character a timestamp the patterns accept can hold. *)
Definition timestamp_char (c : ascii) : bool :=
  is_digit c || Ascii.eqb c "-" || Ascii.eqb c " " || Ascii.eqb c ":"
  || Ascii.eqb c newline.

(** [all(p(c) for c in s)] *)
Fixpoint every (p : ascii -> bool) (s : string) : bool :=
  match s with
  | EmptyString => true
  | String c s' => p c && every p s'
  end.

(** *** File names *)

(** [c in s] for a character. *)
Fixpoint mentions (c : ascii) (s : string) : bool :=
  match s with
  | EmptyString => false
  | String a s' => Ascii.eqb a c || mentions c s'
  end.

(** The states [\d+] can stop in, longest run first. *)
Fixpoint digit_states (p : nat) (s : string) (g : list string) : list mstate :=
  match s with
  | String c s' =>
      if is_digit c
      then (digit_states (S p) s' g ++ [MState (S p) s' g])%list
      else []
  | EmptyString => []
  end.



(** *** Keys and stores *)

(** The key of a reading under a report type. *)
Definition reading_key (report_type : string) (r : Reading) : key :=
  (rd_station_id r, rd_monitor_code r, rd_timestamp r, report_type).


(** The engine accepts the frame of a call: station ids and granularity fit
    their columns and no two readings share a key. *)
Definition accepted (report_type : string) (granularity : Z)
    (df : list Reading) : bool :=
  forallb (fun r => in_int32 (rd_station_id r)) df
  && in_int32 granularity
  && negb (repeats (map (reading_key report_type) df)).

(** The row a conflict leaves, and the row an insertion adds. *)
Definition merged (r : Staged) (m : Measurement) : Measurement :=
  mkMeasurement (ms_id m) (ms_station_id m) (ms_monitor_code m)
    (ms_timestamp m) (rd_value (sg_reading r)) (ms_report_type m)
    (sg_granularity r) (sg_created_at r).

Definition inserted (seq : Z) (r : Staged) : Measurement :=
  mkMeasurement seq (rd_station_id (sg_reading r))
    (rd_monitor_code (sg_reading r)) (rd_timestamp (sg_reading r))
    (rd_value (sg_reading r)) (sg_report_type r)
    (sg_granularity r) (sg_created_at r).


(** The rows of a statement, proposed in order. *)
Definition run_rows (rows : list Staged) (acc : list Measurement * Z) :=
  fold_left upsert_measurement rows acc.

(** A row of the frame after [with_columns]. *)
Definition stage (report_type : string) (granularity now : Z) (r : Reading)
  : Staged :=
  mkStaged r report_type granularity now.



(** Every reading names a monitor of the registry. *)
Definition registry_covers (ex : extraction) : Prop :=
  forall r, In r (fst ex) -> exists info, lookup (rd_monitor_code r) (snd ex) = Some info.

(** A set-up step of [main] raised. *)
Definition setup_raises (w : World) : Prop := exists e, w_setup w = Raise e.

(** *** Texts and values *)

(** The calendar values and the time of day [normalize_datetime] accepts. *)
Definition normalizable (y m d h mi : Z) : Prop :=
  Datetime.valid_date y m d = true /\ mi <= 59
  /\ (h <= 23 \/ (h = 24 /\ (y, m, d) <> (9999, 12, 31))).


(** The text the classifier reads from a row. *)
Definition datetime_text (repr : json -> string) (d : dict) : string :=
  py_str repr (dict_get "datetime" d (JStr "")).

(** A value that is no JSON object. *)
Definition not_object (v : json) : Prop := forall d, v <> JObj d.

(** *** The code map *)

(** The codes a station entry of the code map lists. *)
Definition codes_of (station : string * json) : dict :=
  match station_codes (snd station) with
  | Ok codes => codes
  | Raise _ => []
  end.

(** The last value a list of pairs gives a key. *)
Definition last_value (k : string) (l : dict) : option json :=
  lookup k (rev l).

(** *** Documents and readings *)

(** The keys under which a document may wrap its rows, in the order they
    are tried. *)
Definition wrapper_keys : list string := ["data"; "Data"; "records"; "Records"].

(** A document holds a list under a key. *)
Definition holds_list (d : dict) (key : string) : Prop :=
  exists rows, lookup key d = Some (JArr rows).

(** The fields of a row that hold a reading. *)
Definition monitor_field (item : string * json) : bool :=
  startswith (fst item) "S_".

(** The readings a row holds: its normalized timestamp with the key and
    the value of each monitor field, in the row's order. *)
Definition reading_fields (row : json) : list (string * string * json) :=
  match row with
  | JObj d =>
      match normalize_datetime (dict_get "datetime" d (JStr "")) with
      | Some timestamp =>
          map (fun item => (timestamp, fst item, snd item))
              (filter monitor_field d)
      | None => []
      end
  | _ => []
  end.

(** A reading of the frame stands for a field of a row. *)
Definition reading_of (station_id : Z) (r : Reading)
    (f : string * string * json) : Prop :=
  rd_station_id r = station_id
  /\ rd_timestamp r = fst (fst f)
  /\ rd_monitor_code r = snd (fst f)
  /\ coerce_value (snd f) = Ok (rd_value r).

(** An entry of the registry describes a monitor as the code map does, with
    the code as its name and no unit where the map is silent. *)
Definition described (code_map : dict) (code : string) (info : MonitorInfo)
  : Prop :=
  mi_code info = code
  /\ exists entry,
       (lookup code code_map = Some (JObj entry)
        \/ (lookup code code_map = None /\ entry = []))
       /\ mi_name info = dict_get "label" entry (JStr code)
       /\ mi_unit info = dict_get "unit" entry (JStr "").

(** What holds of the readings and the registry at each step of the loop. *)
Definition registry_exact (code_map : dict) (ex : extraction) : Prop :=
  NoDup (map fst (snd ex))
  /\ (forall code, In code (map fst (snd ex))
                   <-> In code (map rd_monitor_code (fst ex)))
  /\ (forall code info, In (code, info) (snd ex) -> described code_map code info).

(** A field the extractor cannot take: the code map describes its monitor
    by something that is no object, or its value cannot be coerced. *)
Definition field_fails (code_map : dict) (f : string * string * json) : Prop :=
  (exists v, lookup (snd (fst f)) code_map = Some v /\ not_object v)
  \/ (exists e, coerce_value (snd f) = Raise e).


(** *** Constraints and identities *)






(** *** The run *)

(** The entries of the directory [main] processes. *)
Definition json_files (entries : list (string * file_content))
  : list (string * file_content) :=
  filter (fun f => endswith (fst f) ".json") entries.

(** *** Sample data

    The file [1_CentroTest.json] of the end-to-end scenario: one reading and
    one summary row. *)

(** A rendering of the values that are no text, for the sample runs. *)
Definition demo_repr (v : json) : string := "None".

Definition demo_rows : json :=
  JArr [JObj [("datetime", JStr "01-01-2024 08:00"); ("S_PM25", JStr "23.4")];
        JObj [("datetime", JStr "Summary"); ("S_PM25", JStr "Avg")]].

Definition demo_reading : Reading :=
  mkReading 1 "S_PM25" "2024-01-01 08:00:00" (Some (FDec false 234 (-1))).

(** A store that holds the monitor [S_PM25] under id 1. *)
Definition demo_monitors_db : DB :=
  mkDB [] [mkMonitor 1 "S_PM25" (JStr "S_PM25") (JStr "")] 2 [] 1 [].

Definition demo_file : string * file_content :=
  ("1_CentroTest.json", Parsed demo_rows).

Definition demo_config : Config := mkConfig None None.


(** A world that holds the sample file, and no store yet. *)
Definition demo_world : World :=
  mkWorld None (Ok (demo_config, [])) (Some [demo_file]) 10.

(** A file with one reading and a stray [null] among its rows. *)
Definition demo_stray_rows : json :=
  JArr [JObj [("datetime", JStr "01-01-2024 08:00"); ("S_PM25", JStr "23.4")];
        JNull].

(** A row whose reading is an integer no float can hold. *)
Definition demo_huge_rows : json :=
  JArr [JObj [("datetime", JStr "01-01-2024 08:00");
              ("S_PM25", JInt (2 ^ 1024))]].


(** A code map in which two stations describe [S_PM25]. *)
Definition demo_code_map_file : dict :=
  [("stations",
    JObj [("1", JObj [("codes",
                       JObj [("S_PM25", JObj [("label", JStr "PM 2.5")])])]);
          ("2", JObj [("codes",
                       JObj [("S_PM25", JObj [("label", JStr "Fine dust")])])])])].

(** A code map whose second station entry is [null]. *)
Definition demo_broken_code_map : dict :=
  [("stations",
    JObj [("1", JObj [("codes",
                       JObj [("S_PM25", JObj [("label", JStr "PM 2.5")])])]);
          ("2", JNull)])].

(* ------------------------------------------------------------------ *)
(** ** Digits and padding *)

Lemma is_digit_range (c : ascii) :
  is_digit c = true -> 0 <= digit_value c <= 9.
Proof.
  unfold is_digit, digit_value. intros H.
  apply andb_true_iff in H. destruct H as [H1 H2].
  apply Nat.leb_le in H1, H2. lia.
Qed.

Lemma digit_char_value (c : ascii) :
  is_digit c = true -> digit_char (digit_value c) = c.
Proof.
  intros H. unfold digit_char, digit_value.
  unfold is_digit in H. apply andb_true_iff in H. destruct H as [H1 _].
  apply Nat.leb_le in H1.
  replace (Z.to_nat (48 + (Z.of_nat (nat_of_ascii c) - 48))) with (nat_of_ascii c) by lia.
  apply ascii_nat_embedding.
Qed.

Lemma field2_inv (s : string) :
  field 2 s = true ->
  exists a b, s = String a (String b "") /\ is_digit a = true /\ is_digit b = true.
Proof.
  unfold field. intros H. apply andb_true_iff in H. destruct H as [L D].
  destruct s as [|a [|b [|c s]]]; try discriminate L.
  cbn in D. apply andb_true_iff in D. destruct D as [Da D].
  apply andb_true_iff in D. destruct D as [Db _].
  exists a, b. auto.
Qed.

Lemma field4_inv (s : string) :
  field 4 s = true ->
  exists a b c d, s = String a (String b (String c (String d "")))
    /\ is_digit a = true /\ is_digit b = true
    /\ is_digit c = true /\ is_digit d = true.
Proof.
  unfold field. intros H. apply andb_true_iff in H. destruct H as [L D].
  destruct s as [|a [|b [|c [|d [|e s]]]]]; try discriminate L.
  cbn in D. repeat (apply andb_true_iff in D; destruct D as [? D]).
  exists a, b, c, d. auto.
Qed.

Lemma pad2_digits (a b : ascii) :
  is_digit a = true -> is_digit b = true ->
  pad2 (int_of_digits (String a (String b ""))) = String a (String b "").
Proof.
  intros Ha Hb.
  pose proof (is_digit_range a Ha). pose proof (is_digit_range b Hb).
  unfold int_of_digits, pad2. cbn [int_acc].
  replace ((10 * (10 * 0 + digit_value a) + digit_value b) / 10) with (digit_value a)
    by (apply Z.div_unique with (r := digit_value b); lia).
  replace ((10 * (10 * 0 + digit_value a) + digit_value b) mod 10) with (digit_value b)
    by (apply Z.mod_unique with (q := digit_value a); lia).
  now rewrite !digit_char_value.
Qed.

Lemma int_field2_range (s : string) :
  field 2 s = true -> 0 <= int_of_digits s <= 99.
Proof.
  intros H. destruct (field2_inv s H) as (a & b & -> & Ha & Hb).
  pose proof (is_digit_range a Ha). pose proof (is_digit_range b Hb).
  unfold int_of_digits. cbn [int_acc]. lia.
Qed.

Lemma pad2_field (s : string) : field 2 s = true -> pad2 (int_of_digits s) = s.
Proof.
  intros H. destruct (field2_inv s H) as (a & b & -> & Ha & Hb).
  now apply pad2_digits.
Qed.

Lemma pad4_field (s : string) : field 4 s = true -> pad4 (int_of_digits s) = s.
Proof.
  intros H. destruct (field4_inv s H) as (a & b & c & d & -> & Ha & Hb & Hc & Hd).
  pose proof (is_digit_range a Ha). pose proof (is_digit_range b Hb).
  pose proof (is_digit_range c Hc). pose proof (is_digit_range d Hd).
  pose proof (pad2_digits a b Ha Hb) as Pab.
  pose proof (pad2_digits c d Hc Hd) as Pcd.
  unfold int_of_digits in *. cbn [int_acc] in *. unfold pad4.
  set (hi := 10 * (10 * 0 + digit_value a) + digit_value b) in *.
  set (lo := 10 * (10 * 0 + digit_value c) + digit_value d) in *.
  replace (10 * (10 * hi + digit_value c) + digit_value d) with (hi * 100 + lo)
    by (unfold hi, lo; lia).
  replace ((hi * 100 + lo) / 100) with hi
    by (apply Z.div_unique with (r := lo); unfold hi, lo; lia).
  replace ((hi * 100 + lo) mod 100) with lo
    by (apply Z.mod_unique with (q := hi); unfold hi, lo; lia).
  now rewrite Pab, Pcd.
Qed.

Lemma field2_intro (a b : ascii) :
  is_digit a = true -> is_digit b = true -> field 2 (String a (String b "")) = true.
Proof. intros Ha Hb. unfold field. cbn. now rewrite Ha, Hb. Qed.

Lemma field4_intro (a b c d : ascii) :
  is_digit a = true -> is_digit b = true -> is_digit c = true ->
  is_digit d = true ->
  field 4 (String a (String b (String c (String d "")))) = true.
Proof. intros Ha Hb Hc Hd. unfold field. cbn. now rewrite Ha, Hb, Hc, Hd. Qed.

Lemma field_digits (n : nat) (s : string) : field n s = true -> all_digits s = true.
Proof. unfold field. intros H. now apply andb_true_iff in H. Qed.

Lemma field_length (n : nat) (s : string) :
  field n s = true -> String.length s = n.
Proof.
  unfold field. intros H. apply andb_true_iff in H. destruct H as [H _].
  now apply Nat.eqb_eq.
Qed.

Lemma length_append (a b : string) :
  String.length (a ++ b) = (String.length a + String.length b)%nat.
Proof. induction a as [|c a IH]; cbn; [reflexivity | now rewrite IH]. Qed.

Lemma exact_form_length (s : string) : exact_form s -> String.length s = 16%nat.
Proof.
  intros (dd & mm & yyyy & hh & mi & Hd & Hm & Hy & Hh & Hi & ->).
  unfold timestamp_text. rewrite !length_append.
  rewrite (field_length _ _ Hd), (field_length _ _ Hm), (field_length _ _ Hy),
          (field_length _ _ Hh), (field_length _ _ Hi).
  reflexivity.
Qed.

Lemma is_digit_not (c a : ascii) :
  is_digit c = true -> is_digit a = false -> Ascii.eqb c a = false.
Proof.
  intros Hc Ha. apply Ascii.eqb_neq. intros ->. congruence.
Qed.

(* ------------------------------------------------------------------ *)
(** ** What the patterns accept *)

Section PatternShapes.

Local Arguments is_digit : simpl never.
Local Arguments Ascii.eqb : simpl never.
Local Arguments at_eol : simpl never.

Ltac split_test :=
  match goal with
  | |- context [if is_digit ?c then _ else _] =>
      destruct (is_digit c) eqn:?; cbn; try reflexivity
  | |- context [if Ascii.eqb ?c ?a then _ else _] =>
      destruct (Ascii.eqb c a) eqn:?; cbn; try reflexivity
  | |- context [if at_eol ?t then _ else _] =>
      destruct (at_eol t) eqn:?; cbn; try reflexivity
  end.

(** [datetime_pattern] accepts the texts of [timestamp_shape], with the
    same groups. *)
Lemma datetime_pattern_shape (s : string) :
  re_match datetime_pattern s = timestamp_shape s.
Proof.
  unfold re_match, datetime_pattern.
  do 16 (destruct s as [|? s];
         [cbn; repeat split_test; reflexivity|]).
  cbn. repeat split_test.
Qed.

Lemma row_pattern_shape (s : string) :
  re_match row_pattern s = option_map (fun _ => []) (timestamp_shape s).
Proof.
  unfold re_match, row_pattern.
  do 16 (destruct s as [|? s];
         [cbn; repeat split_test; reflexivity|]).
  cbn. repeat split_test.
Qed.

End PatternShapes.

Lemma shape_of_text (dd mm yyyy hh mi : string) :
  field 2 dd = true -> field 2 mm = true -> field 4 yyyy = true ->
  field 2 hh = true -> field 2 mi = true ->
  timestamp_shape (timestamp_text dd mm yyyy hh mi) = Some [dd; mm; yyyy; hh; mi].
Proof.
  intros Hd Hm Hy Hh Hi.
  destruct (field2_inv _ Hd) as (d1 & d2 & -> & ? & ?).
  destruct (field2_inv _ Hm) as (m1 & m2 & -> & ? & ?).
  destruct (field4_inv _ Hy) as (y1 & y2 & y3 & y4 & -> & ? & ? & ? & ?).
  destruct (field2_inv _ Hh) as (h1 & h2 & -> & ? & ?).
  destruct (field2_inv _ Hi) as (n1 & n2 & -> & ? & ?).
  cbn -[is_digit].
  repeat match goal with H : is_digit _ = true |- _ => rewrite H; clear H end.
  reflexivity.
Qed.

Lemma shape_of_text_newline (dd mm yyyy hh mi : string) :
  field 2 dd = true -> field 2 mm = true -> field 4 yyyy = true ->
  field 2 hh = true -> field 2 mi = true ->
  timestamp_shape (with_newline (timestamp_text dd mm yyyy hh mi))
  = Some [dd; mm; yyyy; hh; mi].
Proof.
  intros Hd Hm Hy Hh Hi.
  destruct (field2_inv _ Hd) as (d1 & d2 & -> & ? & ?).
  destruct (field2_inv _ Hm) as (m1 & m2 & -> & ? & ?).
  destruct (field4_inv _ Hy) as (y1 & y2 & y3 & y4 & -> & ? & ? & ? & ?).
  destruct (field2_inv _ Hh) as (h1 & h2 & -> & ? & ?).
  destruct (field2_inv _ Hi) as (n1 & n2 & -> & ? & ?).
  cbn -[is_digit].
  repeat match goal with H : is_digit _ = true |- _ => rewrite H; clear H end.
  reflexivity.
Qed.

Lemma at_eol_inv (t : string) :
  at_eol t = true -> t = "" \/ t = String newline "".
Proof.
  destruct t as [|c [|c' t]]; cbn; try discriminate; auto.
  intros H. apply Ascii.eqb_eq in H. subst. auto.
Qed.

(** The texts the two timestamp patterns accept: the exact form, and the
    exact form followed by one newline. *)
Lemma timestamp_shape_inv (s : string) (gs : list string) :
  timestamp_shape s = Some gs ->
  exists dd mm yyyy hh mi,
    field 2 dd = true /\ field 2 mm = true /\ field 4 yyyy = true
    /\ field 2 hh = true /\ field 2 mi = true
    /\ gs = [dd; mm; yyyy; hh; mi]
    /\ (s = timestamp_text dd mm yyyy hh mi
        \/ s = with_newline (timestamp_text dd mm yyyy hh mi)).
Proof.
  destruct s as [|d1 [|d2 [|c1 [|m1 [|m2 [|c2 [|y1 [|y2 [|y3 [|y4 [|c3
            [|h1 [|h2 [|c4 [|n1 [|n2 tail]]]]]]]]]]]]]]]]; try discriminate.
  unfold timestamp_shape.
  match goal with |- (if ?b then _ else _) = _ -> _ => destruct b eqn:B end;
    [|discriminate].
  do 16 (apply andb_true_iff in B; destruct B as [B ?]).
  repeat match goal with
         | H : Ascii.eqb _ _ = true |- _ => apply Ascii.eqb_eq in H; subst
         end.
  intros [= <-].
  exists (String d1 (String d2 "")), (String m1 (String m2 "")),
         (String y1 (String y2 (String y3 (String y4 "")))),
         (String h1 (String h2 "")), (String n1 (String n2 "")).
  repeat (split; [first [now apply field2_intro | now apply field4_intro
                         | reflexivity]|]).
  match goal with H : at_eol _ = true |- _ =>
    destruct (at_eol_inv _ H) as [-> | ->] end; [left | right]; reflexivity.
Qed.

Lemma accepted_text (s : string) :
  timestamp_shape s <> None <->
  exact_form s \/ exists s0, exact_form s0 /\ s = with_newline s0.
Proof.
  split.
  - destruct (timestamp_shape s) as [gs|] eqn:E; [intros _ | congruence].
    apply timestamp_shape_inv in E.
    destruct E as (dd & mm & yyyy & hh & mi & Hd & Hm & Hy & Hh & Hi & _ & [-> | ->]).
    + left. exists dd, mm, yyyy, hh, mi. auto 10.
    + right. eexists. split; [|reflexivity].
      exists dd, mm, yyyy, hh, mi. auto 10.
  - intros [(dd & mm & yyyy & hh & mi & Hd & Hm & Hy & Hh & Hi & ->)
           | (s0 & (dd & mm & yyyy & hh & mi & Hd & Hm & Hy & Hh & Hi & ->) & ->)].
    + rewrite shape_of_text by assumption. discriminate.
    + rewrite shape_of_text_newline by assumption. discriminate.
Qed.

Lemma rmatch_cat (r1 r2 : regex) (st : mstate) :
  rmatch (r1 @@ r2) st = flat_map (rmatch r2) (rmatch r1 st).
Proof. reflexivity. Qed.

Lemma rmatch_group (r : regex) (st : mstate) :
  rmatch (Group r) st = map (capture st) (rmatch r st).
Proof. reflexivity. Qed.

Lemma rmatch_bol (s : string) (g : list string) :
  rmatch Bol (MState 0 s g) = [MState 0 s g].
Proof. reflexivity. Qed.

Lemma rmatch_plus_digit (s : string) : forall p g,
  rmatch (Plus Digit) (MState p s g) = digit_states p s g.
Proof.
  induction s as [|c s IH]; intros p g; [reflexivity|].
  specialize (IH (S p) g).
  cbn [digit_states]. cbn -[is_digit] in IH |- *.
  destruct (is_digit c); [|reflexivity].
  cbn [flat_map]. rewrite app_nil_r. unfold advance. cbn [m_pos m_groups].
  now rewrite <- IH.
Qed.

Lemma digit_states_spec (s : string) : forall p g st,
  In st (digit_states p s g) ->
  exists ds rest, s = ds ++ rest /\ ds <> "" /\ all_digits ds = true
    /\ st = MState (p + String.length ds) rest g.
Proof.
  induction s as [|c s IH]; intros p g st Hin; [destruct Hin|].
  cbn [digit_states] in Hin. destruct (is_digit c) eqn:D; [|destruct Hin].
  apply in_app_iff in Hin. destruct Hin as [Hin | [<- | []]].
  - destruct (IH _ _ _ Hin) as (ds & rest & -> & _ & Hd & ->).
    exists (String c ds), rest. cbn. rewrite D, Hd.
    repeat split; try discriminate. f_equal. lia.
  - exists (String c ""), s. cbn. rewrite D.
    repeat split; try discriminate. f_equal. lia.
Qed.

Lemma take_app_length (a b : string) : take (String.length a) (a ++ b) = a.
Proof.
  induction a as [|c a IH]; cbn; [reflexivity | now rewrite IH].
Qed.

(** What the file name pattern accepts. *)
Lemma parse_filename_inv (name : string) (id : Z) :
  parse_filename name = Some id ->
  exists ds rest, name = ds ++ String "_" rest /\ ds <> ""
    /\ all_digits ds = true /\ id = int_of_digits ds.
Proof.
  unfold parse_filename, re_match, filename_pattern.
  rewrite rmatch_cat, rmatch_bol. cbn [flat_map]. rewrite app_nil_r.
  rewrite rmatch_cat, rmatch_group, rmatch_plus_digit.
  destruct (flat_map _ _) as [|st l] eqn:F; [discriminate|].
  assert (In st (flat_map (rmatch (Chr "_"))
                   (map (capture (MState 0 name [])) (digit_states 0 name []))))
    as Hin by (rewrite F; now left).
  clear F. apply in_flat_map in Hin. destruct Hin as (st1 & H1 & H2).
  apply in_map_iff in H1. destruct H1 as (st0 & <- & H0).
  apply digit_states_spec in H0.
  destruct H0 as (ds & rest & -> & Hne & Hd & ->).
  cbn [rmatch capture m_rest m_pos m_groups] in H2.
  destruct rest as [|c rest]; [destruct H2|].
  destruct (Ascii.eqb c "_") eqn:E; [|destruct H2].
  apply Ascii.eqb_eq in E. subst c.
  destruct H2 as [<- | []]. cbn [advance m_groups app].
  unfold capture. cbn [m_groups m_pos m_rest app].
  rewrite Nat.add_0_l, Nat.sub_0_r, take_app_length.
  intros [= <-]. exists ds, rest. auto.
Qed.

(* ------------------------------------------------------------------ *)
(** ** normalize_datetime *)

Lemma normalize_datetime_fields (dd mm yyyy hh mi : string) :
  field 2 dd = true -> field 2 mm = true -> field 4 yyyy = true ->
  field 2 hh = true -> field 2 mi = true ->
  normalize_datetime_body (JStr (timestamp_text dd mm yyyy hh mi)) =
  (dt <- (if int_of_digits hh =? 24
          then d0 <- Datetime.make (int_of_digits yyyy) (int_of_digits mm)
                       (int_of_digits dd) 0 (int_of_digits mi) ;;
               Datetime.add_one_day d0
          else Datetime.make (int_of_digits yyyy) (int_of_digits mm)
                 (int_of_digits dd) (int_of_digits hh) (int_of_digits mi)) ;;
   Ok (Some (Datetime.strftime dt))).
Proof.
  intros. unfold normalize_datetime_body.
  rewrite datetime_pattern_shape, shape_of_text by assumption.
  reflexivity.
Qed.




(** C3: the failing input.  A text that is the exact form followed by a
    newline is not of the exact form, yet [normalize_datetime] returns a
    timestamp for it: [$] in the pattern also matches before a final
    newline. *)
Theorem normalize_datetime_trailing_newline :
  normalize_datetime (JStr (with_newline "15-03-2024 10:00"))
    = Some "2024-03-15 10:00:00"
  /\ ~ exact_form (with_newline "15-03-2024 10:00").
Proof.
  split; [reflexivity|].
  intros H. apply exact_form_length in H. discriminate H.
Qed.

(** Every other text, every value that is no text, and every date that is
    not valid is answered with [None]. *)
Lemma normalize_datetime_not_text (v : json) :
  (forall s, v <> JStr s) -> normalize_datetime v = None.
Proof.
  intros H. destruct v; try reflexivity. now destruct (H s).
Qed.

Lemma normalize_datetime_unmatched (s : string) :
  ~ exact_form s -> (forall s0, exact_form s0 -> s <> with_newline s0) ->
  normalize_datetime (JStr s) = None.
Proof.
  intros H1 H2. unfold normalize_datetime, normalize_datetime_body.
  rewrite datetime_pattern_shape.
  destruct (timestamp_shape s) as [gs|] eqn:E; [|reflexivity].
  exfalso. assert (timestamp_shape s <> None) as A by congruence.
  apply accepted_text in A. destruct A as [A | (s0 & A & ->)]; [auto|].
  now apply (H2 s0).
Qed.

Lemma normalize_datetime_invalid_date (dd mm yyyy hh mi : string) :
  field 2 dd = true -> field 2 mm = true -> field 4 yyyy = true ->
  field 2 hh = true -> field 2 mi = true ->
  Datetime.valid_date (int_of_digits yyyy) (int_of_digits mm)
                      (int_of_digits dd) = false ->
  normalize_datetime (JStr (timestamp_text dd mm yyyy hh mi)) = None.
Proof.
  intros Hd Hm Hy Hh Hi Hv. unfold normalize_datetime.
  rewrite normalize_datetime_fields by assumption.
  unfold Datetime.make. rewrite Hv. cbn [andb bind].
  now destruct (int_of_digits hh =? 24).
Qed.

(* ------------------------------------------------------------------ *)
(** ** is_valid_measurement_row *)

Lemma every_append (p : ascii -> bool) (a b : string) :
  every p (a ++ b) = every p a && every p b.
Proof.
  induction a as [|c a IH]; [reflexivity|]. cbn. now rewrite IH, andb_assoc.
Qed.

Lemma every_digits (s : string) :
  all_digits s = true -> every timestamp_char s = true.
Proof.
  induction s as [|c s IH]; [reflexivity|]. cbn.
  intros H. apply andb_true_iff in H. destruct H as [Hc Hs].
  unfold timestamp_char at 1. rewrite Hc. cbn. auto.
Qed.

Lemma accepted_chars (s : string) :
  timestamp_shape s <> None -> every timestamp_char s = true.
Proof.
  destruct (timestamp_shape s) as [gs|] eqn:E; [intros _ | congruence].
  apply timestamp_shape_inv in E.
  destruct E as (dd & mm & yyyy & hh & mi & Hd & Hm & Hy & Hh & Hi & _ & Hs).
  assert (every timestamp_char (timestamp_text dd mm yyyy hh mi) = true) as T.
  { unfold timestamp_text. rewrite !every_append.
    rewrite (every_digits dd), (every_digits mm), (every_digits yyyy),
            (every_digits hh), (every_digits mi)
      by (eapply field_digits; eassumption).
    reflexivity. }
  destruct Hs as [-> | ->]; [exact T|].
  unfold with_newline. rewrite every_append, T. reflexivity.
Qed.

Lemma prefix_head (k c : ascii) (w s : string) :
  prefix (String k w) (String c s) = true -> k = c.
Proof. cbn. destruct (ascii_dec k c); [auto | discriminate]. Qed.

Lemma contains_first (k : ascii) (w s : string) :
  contains (String k w) s = true -> mentions k s = true.
Proof.
  induction s as [|c s IH]; [cbn; discriminate|].
  cbn [contains mentions]. intros H. apply orb_true_iff in H.
  destruct H as [H | H].
  - apply prefix_head in H. subst. now rewrite Ascii.eqb_refl.
  - rewrite (IH H). apply orb_true_r.
Qed.

Lemma every_mentions (p : ascii -> bool) (k : ascii) (s : string) :
  every p s = true -> p k = false -> mentions k s = false.
Proof.
  intros Hs Hk. induction s as [|c s IH]; [reflexivity|].
  cbn in Hs |- *. apply andb_true_iff in Hs. destruct Hs as [Hc Hs].
  rewrite (IH Hs), orb_false_r. apply Ascii.eqb_neq. intros ->. congruence.
Qed.

(** No summary keyword fits into an accepted text. *)
Lemma accepted_no_keyword (s : string) :
  timestamp_shape s <> None ->
  existsb (fun keyword => contains keyword s) summary_keywords = false.
Proof.
  intros H. apply accepted_chars in H.
  apply not_true_is_false. intros E. apply existsb_exists in E.
  destruct E as (kw & Hin & Hc).
  cbn in Hin.
  repeat (destruct Hin as [<- | Hin];
          [apply contains_first in Hc;
           match type of Hc with
           | mentions ?k _ = true =>
               rewrite (every_mentions timestamp_char k s H eq_refl) in Hc
           end;
           discriminate|]).
  destruct Hin.
Qed.

(** The classifier accepts a record exactly when the text of its timestamp
    field is one the pattern accepts. *)
Lemma is_valid_measurement_row_shape (repr : json -> string) (d : dict) :
  is_valid_measurement_row repr (JObj d) =
  Ok (match timestamp_shape (py_str repr (dict_get "datetime" d (JStr ""))) with
      | Some _ => true
      | None => false
      end).
Proof.
  unfold is_valid_measurement_row. rewrite row_pattern_shape.
  destruct (timestamp_shape _) as [gs|] eqn:E.
  - rewrite accepted_no_keyword by congruence. reflexivity.
  - cbn [option_map]. now destruct (existsb _ _).
Qed.

(** C7: the failing input.  The record's timestamp field holds the exact
    form followed by a newline: it contains no summary keyword and does not
    match the exact form, yet the classifier accepts the record.  The
    defect is the one of C3. *)
Theorem row_with_trailing_newline_accepted (repr : json -> string) :
  is_valid_measurement_row repr
    (JObj [("datetime", JStr (with_newline "15-03-2024 10:30"))]) = Ok true
  /\ ~ exact_form (with_newline "15-03-2024 10:30").
Proof.
  split; [reflexivity|].
  intros H. apply exact_form_length in H. discriminate H.
Qed.

(* ------------------------------------------------------------------ *)
(** ** The station's display name *)

Lemma all_digits_mentions (a : ascii) (ds : string) :
  is_digit a = false -> all_digits ds = true -> mentions a ds = false.
Proof.
  intros Ha. induction ds as [|c ds IH]; [reflexivity|]. cbn.
  intros H. apply andb_true_iff in H. destruct H as [Hc Hd].
  now rewrite (is_digit_not c a Hc Ha), IH.
Qed.

Lemma mentions_app (a : ascii) (s t : string) :
  mentions a (s ++ t) = mentions a s || mentions a t.
Proof.
  induction s as [|c s IH]; [reflexivity|]. cbn. now rewrite IH, orb_assoc.
Qed.

Lemma rfind_dot_none (s : string) : mentions "." s = false -> rfind_dot s = None.
Proof.
  induction s as [|c s IH]; [reflexivity|]. cbn.
  intros H. apply orb_false_iff in H. destruct H as [Hc Hs].
  now rewrite (IH Hs), Hc.
Qed.

Lemma rfind_dot_app (s t : string) :
  mentions "." s = false ->
  rfind_dot (s ++ t) =
  option_map (fun i => (String.length s + i)%nat) (rfind_dot t).
Proof.
  induction s as [|c s IH]; intros H.
  - cbn. now destruct (rfind_dot t).
  - cbn in H. apply orb_false_iff in H. destruct H as [Hc Hs].
    cbn. rewrite (IH Hs). destruct (rfind_dot t); cbn; [reflexivity|].
    now rewrite Hc.
Qed.

Lemma take_app_plus (s t : string) (i : nat) :
  take (String.length s + i) (s ++ t) = s ++ take i t.
Proof.
  induction s as [|c s IH]; [reflexivity|]. cbn. now rewrite IH.
Qed.

(** A prefix with no dot survives [stem]. *)
Lemma stem_keeps_prefix (s t : string) :
  mentions "." s = false -> exists t', stem (s ++ t) = s ++ t'.
Proof.
  intros H. unfold stem. rewrite (rfind_dot_app s t H).
  destruct (rfind_dot t) as [i|]; cbn [option_map]; [|eauto].
  destruct (_ && _); [|eauto].
  rewrite take_app_plus. eauto.
Qed.

Lemma split_on_cons (sep : ascii) (s : string) :
  exists p ps, split_on sep s = p :: ps.
Proof.
  destruct s as [|c s]; cbn; [eauto|].
  destruct (Ascii.eqb c sep); [eauto|].
  destruct (split_on sep s); eauto.
Qed.

(** Splitting after a prefix that does not mention the separator. *)
Lemma split_on_prefix (sep : ascii) (s t : string) :
  mentions sep s = false ->
  split_on sep (s ++ String sep t) = s :: split_on sep t.
Proof.
  induction s as [|c s IH]; intros H.
  - cbn. now rewrite Ascii.eqb_refl.
  - cbn in H. apply orb_false_iff in H. destruct H as [Hc Hs].
    cbn. rewrite Hc, (IH Hs). reflexivity.
Qed.


Lemma append_one (s t : string) (c : ascii) :
  (s ++ String c "") ++ t = s ++ String c t.
Proof. induction s as [|a s IH]; cbn; [reflexivity | now rewrite IH]. Qed.




(* ------------------------------------------------------------------ *)
(** ** Value coercion *)


(* ------------------------------------------------------------------ *)
(** ** The record extractor *)

Lemma fold_res_invariant {A S : Type} (P : S -> Prop) (f : S -> A -> res S) :
  (forall s a s', P s -> f s a = Ok s' -> P s') ->
  forall l s s', P s -> fold_res f l s = Ok s' -> P s'.
Proof.
  intros Hstep. induction l as [|a l IH]; intros s s' Hs H; cbn in H.
  - now injection H as <-.
  - destruct (f s a) as [s1|e] eqn:E; [|discriminate H]. cbn in H.
    eapply IH; [|exact H]. eapply Hstep; eassumption.
Qed.

Lemma lookup_app_some {A : Type} (k : string) (d d' : list (string * A)) (v : A) :
  lookup k d = Some v -> lookup k (d ++ d') = Some v.
Proof.
  induction d as [|[k' v'] d IH]; cbn; [discriminate|].
  destruct (String.eqb k k'); auto.
Qed.

Lemma lookup_app_last {A : Type} (k : string) (d : list (string * A)) (v : A) :
  exists v', lookup k (d ++ [(k, v)]) = Some v'.
Proof.
  induction d as [|[k' v'] d IH]; cbn.
  - rewrite String.eqb_refl. eauto.
  - destruct (String.eqb k k'); eauto.
Qed.

(** Registering a monitor keeps the codes already registered and leaves
    the new code registered. *)
Lemma register_monitor_keeps code_map code mons mons' :
  register_monitor code_map code mons = Ok mons' ->
  (exists info, lookup code mons' = Some info)
  /\ forall c info, lookup c mons = Some info -> lookup c mons' = Some info.
Proof.
  unfold register_monitor. destruct (lookup code mons) as [info|] eqn:L.
  - intros [= <-]. eauto.
  - destruct (dict_get code code_map (JObj [])); try discriminate.
    intros [= <-]. split; [apply lookup_app_last|].
    intros c info. apply lookup_app_some.
Qed.

Lemma extract_field_covers code_map sid ts acc item acc' :
  registry_covers acc ->
  extract_field code_map sid ts acc item = Ok acc' ->
  registry_covers acc'.
Proof.
  intros Hcov. unfold extract_field. destruct item as [key value].
  destruct (startswith key "S_" && negb (key =? "datetime")%string); [|now intros [= <-]].
  destruct (register_monitor code_map key (snd acc)) as [mons'|] eqn:R; [|discriminate].
  cbn [bind]. destruct (coerce_value value) as [v|]; [|discriminate].
  cbn [bind]. intros [= <-].
  destruct (register_monitor_keeps _ _ _ _ R) as [Hnew Hold].
  intros r Hr. cbn [fst snd] in *. apply in_app_iff in Hr.
  destruct Hr as [Hr | [<- | []]].
  - destruct (Hcov r Hr) as [info Hi]. eauto.
  - exact Hnew.
Qed.

Lemma extract_row_covers code_map sid acc row acc' :
  registry_covers acc ->
  extract_row code_map sid acc row = Ok acc' ->
  registry_covers acc'.
Proof.
  intros Hcov. unfold extract_row. destruct row; try discriminate.
  destruct (normalize_datetime _) as [ts|]; [|now intros [= <-]].
  apply fold_res_invariant; [|exact Hcov].
  intros s a s'. apply extract_field_covers.
Qed.




(** C9.  Whenever [parse_json_to_polars] returns, the monitor code of every
    reading it returns is a key of the registry it returns. *)
Theorem extracted_monitors_registered
    (repr : json -> string) (json_data : json) (code_map : dict)
    (station_id : Z) (readings : list Reading)
    (monitors_dict : list (string * MonitorInfo)) :
  parse_json_to_polars repr json_data code_map station_id
    = Ok (readings, monitors_dict) ->
  forall r, In r readings ->
    exists info, lookup (rd_monitor_code r) monitors_dict = Some info.
Proof.
  unfold parse_json_to_polars. intros H.
  change (registry_covers (readings, monitors_dict)).
  destruct (find_rows json_data) as [rows|].
  - destruct (filter_valid repr rows) as [valid|]; [|discriminate H].
    cbn [bind] in H. revert H. apply fold_res_invariant.
    + intros s a s'. apply extract_row_covers.
    + intros r [].
  - injection H as <- <-. intros r [].
Qed.

Lemma extracted_monitors_registered_witness :
  parse_json_to_polars demo_repr demo_rows [] 1
  = Ok ([mkReading 1 "S_PM25" "2024-01-01 08:00:00" (Some (FDec false 234 (-1)))],
        [("S_PM25", mkMonitorInfo "S_PM25" (JStr "S_PM25") (JStr ""))])
  /\ exists info,
       lookup "S_PM25"
         [("S_PM25", mkMonitorInfo "S_PM25" (JStr "S_PM25") (JStr ""))]
       = Some info.
Proof.
  split; [reflexivity|].
  apply (extracted_monitors_registered demo_repr demo_rows [] 1
           [mkReading 1 "S_PM25" "2024-01-01 08:00:00" (Some (FDec false 234 (-1)))]
           [("S_PM25", mkMonitorInfo "S_PM25" (JStr "S_PM25") (JStr ""))]
           eq_refl
           (mkReading 1 "S_PM25" "2024-01-01 08:00:00" (Some (FDec false 234 (-1))))).
  left. reflexivity.
Defined.

(* ------------------------------------------------------------------ *)
(** ** The store *)

(** *** Keys *)

Lemma key_eqb_eq (a b : key) : key_eqb a b = true <-> a = b.
Proof.
  destruct a as [[[s1 c1] t1] r1], b as [[[s2 c2] t2] r2]. cbn.
  rewrite !andb_true_iff, Z.eqb_eq, !String.eqb_eq.
  split; [intros [[[-> ->] ->] ->]; reflexivity | intros [= -> -> -> ->]; auto].
Qed.



Lemma same_key_eqb (r : Staged) (m : Measurement) :
  same_key r m = key_eqb (row_key m) (staged_key r).
Proof. reflexivity. Qed.

Lemma upsert_measurement_unfold tbl seq r :
  upsert_measurement (tbl, seq) r =
  ((if existsb (same_key r) tbl
    then map (fun m => if same_key r m then merged r m else m) tbl
    else tbl ++ [inserted seq r])%list, seq + 1).
Proof. reflexivity. Qed.

Lemma row_key_merged r m : row_key (merged r m) = row_key m.
Proof. reflexivity. Qed.

Lemma row_key_inserted seq r : row_key (inserted seq r) = staged_key r.
Proof. reflexivity. Qed.

Lemma map_merge_keys r tbl :
  map row_key (map (fun m => if same_key r m then merged r m else m) tbl)
  = map row_key tbl.
Proof.
  rewrite map_map. apply map_ext. intros m.
  destruct (same_key r m); reflexivity.
Qed.

Lemma existsb_same_key r tbl :
  existsb (same_key r) tbl = true <-> In (staged_key r) (map row_key tbl).
Proof.
  rewrite existsb_exists, in_map_iff. split.
  - intros (m & Hin & Hk). rewrite same_key_eqb in Hk.
    apply key_eqb_eq in Hk. eauto.
  - intros (m & Hk & Hin). exists m. split; [assumption|].
    rewrite same_key_eqb. now apply key_eqb_eq.
Qed.

(** The keys of the table after one proposed row. *)
Lemma upsert_measurement_keys tbl seq r :
  map row_key (fst (upsert_measurement (tbl, seq) r)) =
  (if existsb (same_key r) tbl then map row_key tbl
   else map row_key tbl ++ [staged_key r])%list.
Proof.
  rewrite upsert_measurement_unfold. cbn [fst].
  destruct (existsb (same_key r) tbl).
  - apply map_merge_keys.
  - now rewrite map_app.
Qed.







Lemma upsert_measurement_nodup tbl seq r :
  NoDup (map row_key tbl) ->
  NoDup (map row_key (fst (upsert_measurement (tbl, seq) r))).
Proof.
  intros H. rewrite upsert_measurement_keys.
  destruct (existsb (same_key r) tbl) eqn:E; [exact H|].
  apply NoDup_app; [exact H | repeat constructor; intros [] |].
  intros k Hk [<- | []].
  assert (existsb (same_key r) tbl = true) as C by now apply existsb_same_key.
  congruence.
Qed.

Lemma run_rows_nodup rows : forall acc,
  NoDup (map row_key (fst acc)) ->
  NoDup (map row_key (fst (run_rows rows acc))).
Proof.
  induction rows as [|r rows IH]; intros [tbl seq] H; [exact H|].
  change (run_rows (r :: rows) (tbl, seq))
    with (run_rows rows (upsert_measurement (tbl, seq) r)).
  apply IH. destruct (upsert_measurement (tbl, seq) r) as [t s] eqn:U.
  pose proof (upsert_measurement_nodup tbl seq r H) as N.
  now rewrite U in N.
Qed.

(** *** Frames without repeated keys *)





(** *** Stations, monitors and views *)

Lemma lookup_dict_set {A : Type} (k : string) (v : A) (d : list (string * A)) :
  lookup k (dict_set k v d) = Some v.
Proof.
  induction d as [|[k' v'] d IH]; cbn.
  - now rewrite String.eqb_refl.
  - destruct (String.eqb k k') eqn:E; cbn; rewrite E; [reflexivity | exact IH].
Qed.

Lemma upsert_monitors_frame (l : list MonitorInfo) : forall db,
  let db' := fold_left upsert_monitor l db in
  stations db' = stations db /\ measurements db' = measurements db
  /\ measurement_seq db' = measurement_seq db /\ views db' = views db.
Proof.
  induction l as [|mi l IH]; intros db; cbn; [auto|].
  destruct (IH (upsert_monitor db mi)) as (-> & -> & -> & ->). cbn. auto.
Qed.

Lemma upsert_station_ok db sid sname now :
  in_int32 sid = true ->
  exists db', upsert_station db sid sname now = Ok db'
    /\ measurements db' = measurements db
    /\ measurement_seq db' = measurement_seq db
    /\ views db' = views db /\ monitors db' = monitors db
    /\ monitor_seq db' = monitor_seq db.
Proof.
  intros H. unfold upsert_station. rewrite H. eexists. split; [reflexivity|].
  cbn. auto 6.
Qed.

Lemma staged_keys rt g now (df : list Reading) :
  map staged_key (map (stage rt g now) df) = map (reading_key rt) df.
Proof. rewrite map_map. reflexivity. Qed.

Lemma staged_fit rt g now (df : list Reading) :
  df <> [] ->
  forallb fits_integer_columns (map (stage rt g now) df)
  = forallb (fun r => in_int32 (rd_station_id r)) df && in_int32 g.
Proof.
  intros Hne. induction df as [|r df IH]; [congruence|].
  destruct df as [|r' df].
  - cbn. unfold fits_integer_columns. cbn. now rewrite !andb_true_r.
  - cbn [map forallb] in IH |- *. rewrite IH by discriminate.
    unfold fits_integer_columns at 1. cbn [stage sg_reading sg_granularity].
    destruct (in_int32 (rd_station_id r)), (in_int32 g),
      (in_int32 (rd_station_id r')); cbn; try reflexivity;
      now rewrite ?andb_true_r, ?andb_false_r.
Qed.

(** The statement on a registered frame: run when the frame is accepted,
    refused otherwise. *)
Lemma insert_measurements_frame db rt g now (df : list Reading) :
  df <> [] ->
  lookup temp_view (views db) = Some (map (stage rt g now) df) ->
  if accepted rt g df
  then forall tbl seq,
         run_rows (map (stage rt g now) df)
                  (measurements db, measurement_seq db) = (tbl, seq) ->
         insert_measurements db temp_view
         = Ok (mkDB (stations db) (monitors db) (monitor_seq db) tbl seq
                    (views db))
  else exists e, insert_measurements db temp_view = Raise e.
Proof.
  intros Hne L. unfold insert_measurements, accepted. rewrite L.
  rewrite (staged_fit rt g now df Hne), staged_keys.
  destruct (forallb _ df && in_int32 g); cbn [negb andb]; [|eauto].
  destruct (repeats (map (reading_key rt) df)); cbn [negb]; [eauto|].
  intros tbl seq R. unfold run_rows in R. now rewrite R.
Qed.

Lemma unregister_not_registered name db :
  registered name (unregister name db) = false.
Proof.
  unfold registered, unregister. cbn [views].
  induction (views db) as [|[n v] l IH]; [reflexivity|].
  cbn [filter fst]. destruct (String.eqb n name) eqn:E; cbn [negb]; [exact IH|].
  cbn [existsb fst]. now rewrite E.
Qed.

(** C10.  When the monitor's code is already in the table, the upsert adds
    no row and changes no id and no code; the rows under the code take the
    new name and unit, every other row stays, the other tables stay, and
    the sequence advances by one. *)
Theorem upsert_monitor_existing (db : DB) (minfo : MonitorInfo) :
  In (mi_code minfo) (map mon_code (monitors db)) ->
  let db' := upsert_monitor db minfo in
  map mon_id (monitors db') = map mon_id (monitors db)
  /\ map mon_code (monitors db') = map mon_code (monitors db)
  /\ (forall m, In m (monitors db') -> mon_code m = mi_code minfo ->
        mon_name m = mi_name minfo /\ mon_unit m = mi_unit minfo)
  /\ (forall m, In m (monitors db) -> mon_code m <> mi_code minfo ->
        In m (monitors db'))
  /\ monitor_seq db' = monitor_seq db + 1
  /\ stations db' = stations db
  /\ measurements db' = measurements db
  /\ measurement_seq db' = measurement_seq db.
Proof.
  intros Hin.
  assert (existsb (fun m => String.eqb (mon_code m) (mi_code minfo)) (monitors db) = true) as E.
  { apply existsb_exists. apply in_map_iff in Hin. destruct Hin as (m & Hc & Hm).
    exists m. split; [assumption|]. now apply String.eqb_eq. }
  unfold upsert_monitor. cbn [monitors monitor_seq stations measurements measurement_seq].
  rewrite E.
  split; [|split; [|split; [|split]]]; auto.
  - rewrite map_map. apply map_ext. intros m.
    now destruct (String.eqb (mon_code m) (mi_code minfo)).
  - rewrite map_map. apply map_ext. intros m.
    now destruct (String.eqb (mon_code m) (mi_code minfo)).
  - intros m Hm Hc. apply in_map_iff in Hm. destruct Hm as (m0 & <- & _).
    destruct (String.eqb (mon_code m0) (mi_code minfo)) eqn:K; [cbn; auto|].
    apply String.eqb_neq in K. contradiction.
  - intros m Hm Hc. apply in_map_iff. exists m. split; [|assumption].
    apply String.eqb_neq in Hc. now rewrite Hc.
Qed.

Lemma upsert_monitor_existing_witness :
  In "S_PM25" (map mon_code (monitors demo_monitors_db))
  /\ monitors (upsert_monitor demo_monitors_db
                 (mkMonitorInfo "S_PM25" (JStr "PM 2.5") (JStr "ug/m3")))
     = [mkMonitor 1 "S_PM25" (JStr "PM 2.5") (JStr "ug/m3")]
  /\ monitor_seq (upsert_monitor demo_monitors_db
                    (mkMonitorInfo "S_PM25" (JStr "PM 2.5") (JStr "ug/m3")))
     = 3.
Proof.
  assert (In "S_PM25" (map mon_code (monitors demo_monitors_db))) as Hin
    by (left; reflexivity).
  split; [exact Hin|].
  pose proof (upsert_monitor_existing demo_monitors_db
                (mkMonitorInfo "S_PM25" (JStr "PM 2.5") (JStr "ug/m3")) Hin)
    as (_ & _ & _ & _ & Hseq & _).
  split; [reflexivity | exact Hseq].
Defined.

(** *** insert_data_duckdb *)

(** What one call does to the measurements table and its sequence. *)
Lemma insert_data_duckdb_measurements db df sid sname mons rt g now :
  in_int32 sid = true ->
  exists db',
    insert_data_duckdb db df sid sname mons rt g now = Ok db'
    /\ (measurements db', measurement_seq db') =
       (if accepted rt g df
        then run_rows (map (stage rt g now) df)
                      (measurements db, measurement_seq db)
        else (measurements db, measurement_seq db)).
Proof.
  intros Hs. unfold insert_data_duckdb.
  destruct (upsert_station_ok db sid sname now Hs)
    as (db1 & -> & M1 & S1 & V1 & _). cbn [bind].
  destruct (upsert_monitors_frame (map snd mons) db1) as (_ & M2 & S2 & V2).
  set (db2 := fold_left upsert_monitor (map snd mons) db1) in *.
  destruct df as [|r df].
  - exists db2. split; [reflexivity|]. rewrite M2, S2, M1, S1.
    now destruct (accepted rt g []).
  - set (rows := r :: df). fold (stage rt g now).
    assert (rows <> []) as Hne by discriminate.
    pose proof (insert_measurements_frame (register temp_view
                  (map (stage rt g now) rows) db2) rt g now rows Hne
                  (lookup_dict_set _ _ _)) as I.
    cbn [measurements measurement_seq register] in I.
    rewrite M2, S2, M1, S1 in I.
    destruct (accepted rt g rows).
    + destruct (run_rows _ _) as [tbl seq] eqn:R.
      rewrite (I tbl seq eq_refl). eexists. split; reflexivity.
    + destruct I as [e ->]. eexists. split; [reflexivity|].
      cbn. now rewrite M2, S2, M1, S1.
Qed.

Lemma insert_raises_out_of_range db df sid sname mons rt g now :
  in_int32 sid = false ->
  insert_data_duckdb db df sid sname mons rt g now = Raise ConversionError.
Proof.
  intros H. unfold insert_data_duckdb, upsert_station. now rewrite H.
Qed.

(** A call of [insert_data_duckdb] never stores two rows under one key. *)
Lemma insert_data_duckdb_unique_keys db df sid sname mons rt g now db' :
  NoDup (map row_key (measurements db)) ->
  insert_data_duckdb db df sid sname mons rt g now = Ok db' ->
  NoDup (map row_key (measurements db')).
Proof.
  intros N H. destruct (in_int32 sid) eqn:R.
  - destruct (insert_data_duckdb_measurements db df sid sname mons rt g now R)
      as (db1 & E & M).
    rewrite E in H. injection H as <-.
    destruct (accepted rt g df).
    + pose proof (run_rows_nodup (map (stage rt g now) df)
                    (measurements db, measurement_seq db) N) as K.
      rewrite <- M in K. exact K.
    + injection M as -> _. exact N.
  - rewrite insert_raises_out_of_range in H by assumption. discriminate.
Qed.

(** C6: the failing input.  With a granularity outside [INTEGER] the
    statement raises, the handler prints the error, and the call returns
    with the view still registered. *)
Theorem view_left_registered_on_error :
  exists db',
    process_json_file demo_repr "1_CentroTest.json" (Parsed demo_rows)
      empty_db [] (mkConfig None (Some 3000000000)) 0 = Ok db'
    /\ registered temp_view db' = true
    /\ measurements db' = [].
Proof. eexists. split; [reflexivity|]. split; reflexivity. Qed.

(** After a call whose statement ran, the view is released. *)
Lemma view_released_on_success db df sid sname mons rt g now db' :
  df <> [] -> accepted rt g df = true ->
  insert_data_duckdb db df sid sname mons rt g now = Ok db' ->
  registered temp_view db' = false.
Proof.
  intros Hne A. unfold insert_data_duckdb.
  destruct (upsert_station db sid sname now) as [db1|]; [|discriminate].
  cbn [bind]. destruct df as [|r df]; [congruence|].
  fold (stage rt g now).
  set (db3 := register temp_view _ _).
  pose proof (insert_measurements_frame db3 rt g now (r :: df) Hne
                (lookup_dict_set _ _ _)) as I.
  rewrite A in I.
  destruct (run_rows _ _) as [tbl seq] eqn:R. rewrite (I tbl seq eq_refl).
  intros [= <-]. apply unregister_not_registered.
Qed.




(** *** Ingesting a file *)






(* ------------------------------------------------------------------ *)
(** ** main *)

(** C4, as amended.  The exit status is not zero exactly when a set-up step
    raises or the downloads directory does not exist; with the directory
    in place the status does not depend on the entries of the directory or
    on what processing them does, and is zero once set-up has passed, also
    when no entry is a JSON file. *)
Theorem main_exit_code (repr : json -> string) (w : World) :
  (exit_code (main repr w) <> 0 <-> setup_raises w \/ w_downloads w = None)
  /\ (forall entries,
        exit_code (main repr (mkWorld (w_store w) (w_setup w) (Some entries)
                                      (w_clock w)))
        = match w_setup w with Ok _ => 0 | Raise _ => 1 end).
Proof.
  assert (forall w0, exit_code (main repr w0) =
            match w_setup w0, w_downloads w0 with
            | Ok _, Some _ => 0
            | _, _ => 1
            end) as E.
  { intros w0. unfold main. destruct (w_setup w0) as [[config code_map]|e];
      [|reflexivity].
    destruct (w_downloads w0) as [entries|]; [|reflexivity].
    destruct (filter _ entries); [reflexivity|].
    destruct (process_all _ _ _ _ _ _) as [[db ok] err]. reflexivity. }
  split.
  - rewrite E. unfold setup_raises.
    destruct (w_setup w) as [c|e]; destruct (w_downloads w) as [d|]; split;
      try (intros H; now (exfalso; apply H));
      try (intros _; discriminate);
      try (intros [[e' H] | H]; discriminate);
      eauto.
  - intros entries. rewrite E. cbn. now destruct (w_setup w).
Qed.

(** C4 as stated fails: a directory that holds no JSON file ends the run
    with status zero. *)
Lemma empty_directory_exits_zero :
  exit_code (main demo_repr
               (mkWorld None (Ok (mkConfig None None, [])) (Some []) 0)) = 0
  /\ exit_code (main demo_repr
               (mkWorld None (Ok (mkConfig None None, []))
                        (Some [("notes.txt", Malformed)]) 0)) = 0.
Proof. split; reflexivity. Qed.

(* ------------------------------------------------------------------ *)
(** ** Lists and dictionaries *)

Lemma NoDup_snoc {A : Type} (l : list A) (a : A) :
  NoDup l -> ~ In a l -> NoDup (l ++ [a]).
Proof.
  induction l as [|b l IH]; intros Hn Hi; cbn.
  - constructor; [intros [] | constructor].
  - inversion Hn as [|? ? Hb Hl]; subst. constructor.
    + rewrite in_app_iff. cbn. intros [H|[H|[]]]; [contradiction|].
      apply Hi. now left.
    + apply IH; [assumption|]. intros H. apply Hi. now right.
Qed.

Lemma lookup_none_iff {A : Type} (k : string) (d : list (string * A)) :
  lookup k d = None <-> ~ In k (map fst d).
Proof.
  induction d as [|[k' v] d IH]; cbn; [tauto|].
  destruct (String.eqb_spec k k') as [->|N].
  - split; [discriminate | intros H; destruct H; now left].
  - rewrite IH. split; [intros H [E|I]; [congruence | tauto] | tauto].
Qed.

Lemma lookup_app {A : Type} (k : string) (x y : list (string * A)) :
  lookup k (x ++ y) = match lookup k x with
                      | Some v => Some v
                      | None => lookup k y
                      end.
Proof.
  induction x as [|[k' v'] x IH]; cbn; [reflexivity|].
  destruct (String.eqb k k'); [reflexivity | exact IH].
Qed.

Lemma lookup_dict_set_other {A : Type} (k k' : string) (v : A)
    (d : list (string * A)) :
  k <> k' -> lookup k (dict_set k' v d) = lookup k d.
Proof.
  intros N. induction d as [|[k0 v0] d IH]; cbn.
  - destruct (String.eqb_spec k k'); [contradiction | reflexivity].
  - destruct (String.eqb_spec k' k0) as [->|N0]; cbn.
    + destruct (String.eqb_spec k k0); [contradiction | reflexivity].
    + destruct (String.eqb k k0); [reflexivity | exact IH].
Qed.

Lemma dict_set_keys {A : Type} (k : string) (v : A) (d : list (string * A)) :
  map fst (dict_set k v d)
  = if existsb (String.eqb k) (map fst d) then map fst d
    else (map fst d ++ [k])%list.
Proof.
  induction d as [|[k0 v0] d IH]; cbn; [reflexivity|].
  destruct (String.eqb k k0) eqn:E; cbn; [reflexivity|].
  rewrite IH. now destruct (existsb _ _).
Qed.

Lemma dict_set_nodup {A : Type} (k : string) (v : A) (d : list (string * A)) :
  NoDup (map fst d) -> NoDup (map fst (dict_set k v d)).
Proof.
  intros N. rewrite dict_set_keys.
  destruct (existsb _ _) eqn:E; [exact N|].
  apply NoDup_snoc; [exact N|]. intros I.
  assert (existsb (String.eqb k) (map fst d) = true); [|congruence].
  apply existsb_exists. exists k. split; [exact I | apply String.eqb_refl].
Qed.

Lemma existsb_in_map {A B : Type} (f : A -> B) (eqb : B -> B -> bool)
    (b : B) (l : list A) :
  (forall x y, eqb x y = true <-> x = y) ->
  existsb (fun a => eqb (f a) b) l = true <-> In b (map f l).
Proof.
  intros E. rewrite existsb_exists, in_map_iff.
  split; intros (a & H1 & H2).
  - exists a. split; [now apply E | exact H1].
  - exists a. split; [exact H2 | now apply E].
Qed.

Lemma map_update_column {A B : Type} (f : A -> B) (p : A -> bool)
    (u : A -> A) (l : list A) :
  (forall a, f (u a) = f a) ->
  map f (map (fun a => if p a then u a else a) l) = map f l.
Proof.
  intros H. rewrite map_map. apply map_ext. intros a.
  destruct (p a); [apply H | reflexivity].
Qed.





Lemma filter_permutation {A : Type} (p : A -> bool) (l l' : list A) :
  Permutation l l' -> Permutation (filter p l) (filter p l').
Proof.
  induction 1 as [|x l l' P IH|x y l|l1 l2 l3 P1 IH1 P2 IH2]; cbn [filter].
  - reflexivity.
  - destruct (p x); [now apply perm_skip | assumption].
  - destruct (p x), (p y); try reflexivity. apply perm_swap.
  - now rewrite IH1.
Qed.

Lemma Forall2_in_right {A B : Type} (R : A -> B -> Prop) (l : list A)
    (l' : list B) (b : B) :
  Forall2 R l l' -> In b l' -> exists a, In a l /\ R a b.
Proof.
  induction 1 as [|x y l l' Hxy _ IH]; intros I; [destruct I|].
  destruct I as [<-|I].
  - exists x. split; [now left | exact Hxy].
  - destruct (IH I) as (a & Ia & Ra). exists a. split; [now right | exact Ra].
Qed.

Lemma fold_res_raises {A S : Type} (f : S -> A -> res S) (l : list A) :
  forall s e,
  fold_res f l s = Raise e -> exists a s', In a l /\ f s' a = Raise e.
Proof.
  induction l as [|a l IH]; intros s e H; cbn [fold_res] in H; [discriminate H|].
  destruct (f s a) as [s1|e1] eqn:E; cbn [bind] in H.
  - destruct (IH _ _ H) as (b & s' & I & R). exists b, s'. split; [now right | exact R].
  - injection H as <-. exists a, s. split; [now left | exact E].
Qed.





(* ------------------------------------------------------------------ *)
(** ** File names: what is accepted *)

Lemma all_digits_cons_inv c s :
  all_digits (String c s) = true -> is_digit c = true /\ all_digits s = true.
Proof. cbn. intros H. now apply andb_true_iff in H. Qed.

(** After a run of digits that an underscore ends, [\d+] followed by [_]
    matches in exactly one way: the whole run, then the underscore. *)
Lemma digits_then_underscore (ds : string) : forall p g st0 rest,
  all_digits ds = true -> ds <> "" ->
  flat_map (rmatch (Chr "_"))
    (map (capture st0) (digit_states p (ds ++ String "_" rest) g))
  = [MState (S (p + String.length ds)) rest
       (g ++ [take (p + String.length ds - m_pos st0) (m_rest st0)])].
Proof.
  induction ds as [|c ds IH]; intros p g st0 rest Hd Hne; [congruence|].
  apply all_digits_cons_inv in Hd. destruct Hd as [Hc Hd].
  cbn [append digit_states]. rewrite Hc.
  rewrite map_app, flat_map_app. cbn [map flat_map].
  destruct ds as [|c' ds].
  - cbn [append digit_states]. 
    assert (is_digit "_" = false) as -> by reflexivity.
    cbn [map flat_map app]. unfold capture. cbn [rmatch m_rest m_pos m_groups].
    rewrite Ascii.eqb_refl. cbn [String.length]. unfold advance. cbn [m_pos m_groups app].
    now rewrite Nat.add_1_r.
  - rewrite (IH (S p) g st0 rest Hd) by discriminate.
    apply all_digits_cons_inv in Hd. destruct Hd as [Hc' _].
    cbn [append]. unfold capture at 1. cbn [rmatch m_rest].
    assert (Ascii.eqb c' "_" = false) as ->.
    { apply Ascii.eqb_neq. intros ->. discriminate Hc'. }
    cbn [app String.length].
    replace (S p + S (String.length ds))%nat
      with (p + S (S (String.length ds)))%nat by lia.
    reflexivity.
Qed.

Lemma parse_filename_digits (ds rest : string) :
  all_digits ds = true -> ds <> "" ->
  parse_filename (ds ++ String "_" rest) = Some (int_of_digits ds).
Proof.
  intros Hd Hne. unfold parse_filename, re_match, filename_pattern.
  rewrite rmatch_cat, rmatch_bol. cbn [flat_map]. rewrite app_nil_r.
  rewrite rmatch_cat, rmatch_group, rmatch_plus_digit.
  rewrite (digits_then_underscore ds 0 [] _ rest Hd Hne).
  cbn [m_groups m_pos m_rest app]. rewrite Nat.add_0_l, Nat.sub_0_r.
  now rewrite take_app_length.
Qed.

Lemma int_acc_nonneg (s : string) : forall acc,
  all_digits s = true -> 0 <= acc -> 0 <= int_acc acc s.
Proof.
  induction s as [|c s IH]; intros acc Hd Ha; [exact Ha|].
  apply all_digits_cons_inv in Hd. destruct Hd as [Hc Hd].
  cbn [int_acc]. apply IH; [assumption|]. pose proof (is_digit_range c Hc). lia.
Qed.

(** X1.  [parse_filename] finds a station id exactly in the names that
    start with one or more decimal digits followed by an underscore; the id
    is the number the digits spell, and it is never negative. *)
Theorem parse_filename_accepts_iff (name : string) (station_id : Z) :
  (parse_filename name = Some station_id <->
   exists ds rest,
     name = ds ++ String "_" rest /\ ds <> "" /\ all_digits ds = true
     /\ station_id = int_of_digits ds)
  /\ (parse_filename name = Some station_id -> 0 <= station_id).
Proof.
  assert (parse_filename name = Some station_id <->
   exists ds rest,
     name = ds ++ String "_" rest /\ ds <> "" /\ all_digits ds = true
     /\ station_id = int_of_digits ds) as E.
  { split; [apply parse_filename_inv|].
    intros (ds & rest & -> & Hne & Hd & ->). now apply parse_filename_digits. }
  split; [exact E|].
  intros H. apply E in H. destruct H as (ds & rest & _ & _ & Hd & ->).
  now apply int_acc_nonneg.
Qed.

(** X2.  When [parse_filename] finds a station id, the stem of the name
    splits at underscores into at least two parts: the display name is
    always the second part, and the label synthesized from the id is never
    used. *)
Theorem default_station_label_unreachable (name : string) (station_id : Z) :
  parse_filename name = Some station_id ->
  (1 < List.length (split_on "_" (stem name)))%nat
  /\ station_name_of name station_id = nth 1 (split_on "_" (stem name)) "".
Proof.
  intros H. apply parse_filename_inv in H.
  destruct H as (ds & rest & -> & Hne & Hd & ->).
  assert (mentions "." (ds ++ "_") = false) as Hdot.
  { rewrite mentions_app, (all_digits_mentions "." ds) by (reflexivity || assumption).
    reflexivity. }
  destruct (stem_keeps_prefix (ds ++ "_") rest Hdot) as [rest' Hstem].
  rewrite !append_one in Hstem.
  unfold station_name_of. rewrite Hstem.
  rewrite split_on_prefix by (apply all_digits_mentions; [reflexivity | assumption]).
  destruct (split_on_cons "_" rest') as (p & ps & ->).
  cbn [List.length]. split; [lia|].
  destruct (1 <? S (S (List.length ps)))%nat eqn:E; [reflexivity|].
  apply Nat.ltb_ge in E. lia.
Qed.

Lemma default_station_label_unreachable_witness :
  parse_filename "7_.json" = Some 7
  /\ (1 < List.length (split_on "_" (stem "7_.json")))%nat
  /\ station_name_of "7_.json" 7 = nth 1 (split_on "_" (stem "7_.json")) "".
Proof.
  split; [reflexivity|].
  exact (default_station_label_unreachable "7_.json" 7 eq_refl).
Defined.

(* ------------------------------------------------------------------ *)
(** ** Timestamps: what normalizes *)





Lemma days_in_month_range (y m : Z) : 28 <= Datetime.days_in_month y m <= 31.
Proof.
  unfold Datetime.days_in_month.
  destruct (m =? 2); [destruct (Datetime.is_leap y); lia|].
  destruct ((m =? 4) || (m =? 6) || (m =? 9) || (m =? 11)); lia.
Qed.

Lemma valid_date_inv (y m d : Z) :
  Datetime.valid_date y m d = true <->
  1 <= y <= 9999 /\ 1 <= m <= 12 /\ 1 <= d <= Datetime.days_in_month y m.
Proof.
  unfold Datetime.valid_date. rewrite !andb_true_iff, !Z.leb_le. tauto.
Qed.

(** The day after a valid date is a valid date, unless the year runs out. *)
Lemma next_day_valid (y m d y' m' d' : Z) :
  Datetime.valid_date y m d = true ->
  Datetime.next_day y m d = (y', m', d') ->
  (y' <= 9999 <-> (y, m, d) <> (9999, 12, 31))
  /\ (y' <= 9999 -> Datetime.valid_date y' m' d' = true).
Proof.
  intros Hv. apply valid_date_inv in Hv. destruct Hv as (Hy & Hm & Hd).
  unfold Datetime.next_day.
  pose proof (days_in_month_range y m) as R.
  destruct (d <? Datetime.days_in_month y m) eqn:E1.
  - intros [= <- <- <-]. split.
    + split; [|lia]. intros _ [= -> -> ->]. cbn in E1. discriminate.
    + intros _. apply valid_date_inv. lia.
  - destruct (m <? 12) eqn:E2.
    + intros [= <- <- <-]. split.
      * split; [|lia]. intros _ [= -> -> ->]. discriminate.
      * intros _. apply valid_date_inv.
        pose proof (days_in_month_range y (m + 1)). lia.
    + intros [= <- <- <-].
      assert (m = 12) as -> by lia.
      assert (d = 31) as -> by (cbn in E1, Hd; lia).
      split.
      * split; [intros H [= ->]; lia | intros H].
        destruct (Z.eq_dec y 9999) as [->|]; [now destruct H | lia].
      * intros Hy'. apply valid_date_inv. cbn. lia.
Qed.

(** The two ways [datetime(...)] is called, and what they return. *)
Lemma normalize_datetime_cases (dd mm yyyy hh mi : string) :
  field 2 dd = true -> field 2 mm = true -> field 4 yyyy = true ->
  field 2 hh = true -> field 2 mi = true ->
  let y := int_of_digits yyyy in
  let m := int_of_digits mm in
  let d := int_of_digits dd in
  let h := int_of_digits hh in
  let n := int_of_digits mi in
  normalize_datetime (JStr (timestamp_text dd mm yyyy hh mi)) =
  if Datetime.valid_date y m d && (n <=? 59) then
    if h =? 24 then
      let '(y', m', d') := Datetime.next_day y m d in
      if y' <=? 9999
      then Some (canonical_text (pad4 y') (pad2 m') (pad2 d') "00" mi)
      else None
    else if h <=? 23 then Some (canonical_text yyyy mm dd hh mi)
    else None
  else None.
Proof.
  intros Hd Hm Hy Hh Hi. cbv zeta.
  pose proof (int_field2_range _ Hh) as Rh.
  pose proof (int_field2_range _ Hi) as Ri.
  unfold normalize_datetime.
  rewrite normalize_datetime_fields by assumption.
  unfold Datetime.make.
  assert ((0 <=? int_of_digits hh) = true) as -> by lia.
  assert ((0 <=? int_of_digits mi) = true) as -> by lia.
  cbn [Z.leb Z.compare andb].
  destruct (Datetime.valid_date _ _ _) eqn:V; cbn [andb];
    [|now destruct (int_of_digits hh =? 24)].
  destruct (int_of_digits hh =? 24) eqn:H24.
  - destruct (int_of_digits mi <=? 59); cbn [bind]; [|reflexivity].
    unfold Datetime.add_one_day.
    cbn [Datetime.year Datetime.month Datetime.day Datetime.hour
         Datetime.minute Datetime.second].
    destruct (Datetime.next_day _ _ _) as [[y' m'] d'].
    destruct (y' <=? 9999); cbn [bind]; [|reflexivity].
    unfold Datetime.strftime, canonical_text.
    cbn [Datetime.year Datetime.month Datetime.day Datetime.hour
         Datetime.minute Datetime.second].
    now rewrite (pad2_field mi) by assumption.
  - destruct (int_of_digits hh <=? 23), (int_of_digits mi <=? 59);
      cbn [andb bind]; try reflexivity.
    unfold Datetime.strftime, canonical_text.
    cbn [Datetime.year Datetime.month Datetime.day Datetime.hour
         Datetime.minute Datetime.second].
    now rewrite (pad4_field yyyy), !pad2_field by assumption.
Qed.

(** X3.  For a text of the exact form DD-MM-YYYY HH:MM,
    [normalize_datetime] returns a timestamp exactly when day, month and
    year form a date of the calendar (years 1 to 9999), the minute is at
    most 59, and the hour is at most 23, or is 24 on a date other than
    31-12-9999. *)
Theorem normalize_datetime_defined_iff (dd mm yyyy hh mi : string) :
  field 2 dd = true -> field 2 mm = true -> field 4 yyyy = true ->
  field 2 hh = true -> field 2 mi = true ->
  (normalize_datetime (JStr (timestamp_text dd mm yyyy hh mi)) <> None <->
   normalizable (int_of_digits yyyy) (int_of_digits mm) (int_of_digits dd)
                (int_of_digits hh) (int_of_digits mi)).
Proof.
  intros Hd Hm Hy Hh Hi.
  rewrite (normalize_datetime_cases dd mm yyyy hh mi) by assumption. cbv zeta.
  unfold normalizable.
  destruct (Datetime.valid_date _ _ _) eqn:V; cbn [andb];
    [|split; [congruence | intros [? _]; discriminate]].
  destruct (int_of_digits mi <=? 59) eqn:M;
    [|split; [congruence | intros (_ & ? & _); lia]].
  destruct (Datetime.next_day _ _ _) as [[y' m'] d'] eqn:N.
  destruct (next_day_valid _ _ _ _ _ _ V N) as [L _].
  destruct (int_of_digits hh =? 24) eqn:H24.
  - destruct (y' <=? 9999) eqn:Y.
    + split; [intros _ | discriminate].
      repeat split; [lia|]. right. split; [lia|]. apply L. lia.
    + split; [congruence|]. intros (_ & _ & [H | [_ H]]); [lia|].
      apply L in H. lia.
  - destruct (int_of_digits hh <=? 23) eqn:H23.
    + split; [intros _ | discriminate]. repeat split; [lia|]. left. lia.
    + split; [congruence|]. intros (_ & _ & [H | [H _]]); lia.
Qed.

Lemma normalize_datetime_defined_iff_witness :
  normalizable 2024 2 29 24 30
  /\ normalize_datetime (JStr "29-02-2024 24:30") <> None.
Proof.
  assert (normalizable 2024 2 29 24 30) as N.
  { split; [reflexivity | split; [lia | right; split; [reflexivity|]]].
    intros H. discriminate H. }
  split; [exact N|].
  exact (proj2 (normalize_datetime_defined_iff "29" "02" "2024" "24" "30"
                  eq_refl eq_refl eq_refl eq_refl eq_refl) N).
Defined.



(** X5.  On texts of the exact form with an hour up to 23 normalization is
    one to one: two such texts with the same result are the same text. *)
Theorem normalize_datetime_injective
    (dd mm yyyy hh mi dd' mm' yyyy' hh' mi' t : string) :
  field 2 dd = true -> field 2 mm = true -> field 4 yyyy = true ->
  field 2 hh = true -> field 2 mi = true ->
  field 2 dd' = true -> field 2 mm' = true -> field 4 yyyy' = true ->
  field 2 hh' = true -> field 2 mi' = true ->
  int_of_digits hh <= 23 -> int_of_digits hh' <= 23 ->
  normalize_datetime (JStr (timestamp_text dd mm yyyy hh mi)) = Some t ->
  normalize_datetime (JStr (timestamp_text dd' mm' yyyy' hh' mi')) = Some t ->
  timestamp_text dd mm yyyy hh mi = timestamp_text dd' mm' yyyy' hh' mi'.
Proof.
  intros Hd Hm Hy Hh Hi Hd' Hm' Hy' Hh' Hi' L L' N N'.
  rewrite (normalize_datetime_cases dd mm yyyy hh mi) in N by assumption.
  rewrite (normalize_datetime_cases dd' mm' yyyy' hh' mi') in N' by assumption.
  cbv zeta in N, N'.
  destruct (_ && _) in N; [|discriminate N].
  destruct (_ && _) in N'; [|discriminate N'].
  assert ((int_of_digits hh =? 24) = false) as E by lia.
  assert ((int_of_digits hh' =? 24) = false) as E' by lia.
  rewrite E in N. rewrite E' in N'.
  destruct (int_of_digits hh <=? 23); [|discriminate N].
  destruct (int_of_digits hh' <=? 23); [|discriminate N'].
  rewrite <- N' in N. clear N' E E' L L'.
  destruct (field2_inv _ Hd) as (? & ? & -> & _).
  destruct (field2_inv _ Hm) as (? & ? & -> & _).
  destruct (field4_inv _ Hy) as (? & ? & ? & ? & -> & _).
  destruct (field2_inv _ Hh) as (? & ? & -> & _).
  destruct (field2_inv _ Hi) as (? & ? & -> & _).
  destruct (field2_inv _ Hd') as (? & ? & -> & _).
  destruct (field2_inv _ Hm') as (? & ? & -> & _).
  destruct (field4_inv _ Hy') as (? & ? & ? & ? & -> & _).
  destruct (field2_inv _ Hh') as (? & ? & -> & _).
  destruct (field2_inv _ Hi') as (? & ? & -> & _).
  cbn in N. injection N as -> -> -> -> -> -> -> -> -> -> -> ->.
  reflexivity.
Qed.

Lemma normalize_datetime_injective_witness :
  timestamp_text "15" "03" "2024" "10" "30"
  = timestamp_text "15" "03" "2024" "10" "30".
Proof.
  apply (normalize_datetime_injective "15" "03" "2024" "10" "30"
           "15" "03" "2024" "10" "30" "2024-03-15 10:30:00");
    first [reflexivity | (vm_compute; discriminate)].
Defined.

(* ------------------------------------------------------------------ *)
(** ** Rows and values: what is accepted and what raises *)

(** X6.  On an object [is_valid_measurement_row] never raises.  It accepts
    exactly when the text of the [datetime] field is of the exact form
    DD-MM-YYYY HH:MM, alone or followed by one newline, which is exactly
    when the pattern matches: the test on the summary keywords rejects
    nothing the pattern would accept.  An object without [datetime] is
    rejected. *)
Theorem is_valid_measurement_row_accepts_iff
    (repr : json -> string) (d : dict) :
  (exists b, is_valid_measurement_row repr (JObj d) = Ok b)
  /\ (is_valid_measurement_row repr (JObj d) = Ok true <->
      exact_form (datetime_text repr d)
      \/ exists s0, exact_form s0 /\ datetime_text repr d = with_newline s0)
  /\ (is_valid_measurement_row repr (JObj d) = Ok true <->
      re_match row_pattern (datetime_text repr d) <> None)
  /\ (lookup "datetime" d = None ->
      is_valid_measurement_row repr (JObj d) = Ok false).
Proof.
  unfold datetime_text. rewrite is_valid_measurement_row_shape.
  split; [eauto|]. split; [|split].
  - rewrite <- accepted_text.
    destruct (timestamp_shape _); split; congruence.
  - rewrite row_pattern_shape.
    destruct (timestamp_shape _); cbn; split; congruence.
  - intros L. unfold dict_get. rewrite L. reflexivity.
Qed.

(** X7.  The coercion of a value raises only for an integer whose magnitude
    is at least 2^1024 - 2^970, which [float] cannot hold; the exception is
    an [OverflowError], which the [except] clause of the coercion does not
    catch. *)
Theorem coerce_value_raises_iff (value : json) (e : exn) :
  coerce_value value = Raise e <->
  exists n, value = JInt n /\ 2 ^ 1024 - 2 ^ 970 <= Z.abs n
            /\ e = OverflowError.
Proof.
  unfold coerce_value.
  destruct (existsb _ missing_tokens) eqn:T.
  - split; [discriminate|]. intros (n & -> & _). discriminate T.
  - destruct value as [|b|n|f|s|l|d]; cbn [py_float].
    + discriminate T.
    + split; [discriminate | intros (n & H & _); discriminate H].
    + destruct (Z.abs n <? 2 ^ 1024 - 2 ^ 970) eqn:R.
      * split; [discriminate|]. intros (n' & [= <-] & H & _). lia.
      * split; [intros [= <-]; exists n; repeat split; lia
               | intros (n' & [= <-] & _ & ->); reflexivity].
    + split; [discriminate | intros (n & H & _); discriminate H].
    + destruct (float_of_text s);
        (split; [discriminate | intros (n & H & _); discriminate H]).
    + split; [discriminate | intros (n & H & _); discriminate H].
    + split; [discriminate | intros (n & H & _); discriminate H].
Qed.

(* ------------------------------------------------------------------ *)
(** ** The code map: what is loaded *)

Lemma add_codes_lookup (codes : dict) : forall start k,
  lookup k (add_codes start codes)
  = match last_value k codes with
    | Some v => Some v
    | None => lookup k start
    end.
Proof.
  unfold add_codes, last_value.
  induction codes as [|[c v] codes IH]; intros m k; cbn [fold_left rev].
  - reflexivity.
  - rewrite IH, lookup_app. cbn [fst snd lookup].
    destruct (lookup k (rev codes)); [reflexivity|].
    destruct (String.eqb_spec k c) as [->|N].
    + apply lookup_dict_set.
    + now apply lookup_dict_set_other.
Qed.

Lemma add_codes_nodup (codes : dict) : forall start,
  NoDup (map fst start) -> NoDup (map fst (add_codes start codes)).
Proof.
  unfold add_codes.
  induction codes as [|[c v] codes IH]; intros m N; cbn [fold_left]; [exact N|].
  apply IH. now apply dict_set_nodup.
Qed.

Lemma load_stations (station_entries : list (string * json)) :
  forall start result,
  fold_res (fun flat_map station =>
              codes <- station_codes (snd station) ;;
              Ok (add_codes flat_map codes)) station_entries start
  = Ok result ->
  (NoDup (map fst start) -> NoDup (map fst result))
  /\ forall k,
       lookup k result
       = match last_value k (flat_map codes_of station_entries) with
         | Some v => Some v
         | None => lookup k start
         end.
Proof.
  induction station_entries as [|st sts IH]; intros m result H;
    cbn [fold_res] in H.
  - injection H as <-. split; [auto|]. reflexivity.
  - destruct (station_codes (snd st)) as [codes|e] eqn:C; [|discriminate H].
    cbn [bind] in H. destruct (IH _ _ H) as [N L]. split.
    + intros Nm. apply N. now apply add_codes_nodup.
    + intros k. rewrite L. cbn [List.flat_map]. unfold codes_of at 2.
      rewrite C. unfold last_value. rewrite rev_app_distr, lookup_app.
      fold (last_value k (List.flat_map codes_of sts)).
      destruct (last_value k (List.flat_map codes_of sts)); [reflexivity|].
      apply add_codes_lookup.
Qed.

(** X8.  The code map [load_code_map] returns has one entry per code, and
    a code that several stations list gets the description that comes last
    in the file. *)
Theorem load_code_map_last_station_wins
    (d : dict) (station_entries : list (string * json)) (code_map : dict) :
  dict_get "stations" d (JObj []) = JObj station_entries ->
  load_code_map (Some (Parsed (JObj d))) = Ok code_map ->
  NoDup (map fst code_map)
  /\ forall code,
       lookup code code_map
       = last_value code (flat_map codes_of station_entries).
Proof.
  intros S H. unfold load_code_map in H. rewrite S in H.
  destruct (load_stations _ _ _ H) as [N L]. split.
  - apply N. constructor.
  - intros code. rewrite L. now destruct (last_value _ _).
Qed.

Lemma load_code_map_last_station_wins_witness :
  load_code_map (Some (Parsed (JObj demo_code_map_file)))
  = Ok [("S_PM25", JObj [("label", JStr "Fine dust")])]
  /\ NoDup (map fst [("S_PM25", JObj [("label", JStr "Fine dust")])])
  /\ lookup "S_PM25" [("S_PM25", JObj [("label", JStr "Fine dust")])]
     = Some (JObj [("label", JStr "Fine dust")]).
Proof.
  split; [reflexivity|].
  destruct (load_code_map_last_station_wins demo_code_map_file _ _
              eq_refl eq_refl) as [N L].
  split; [exact N | exact (L "S_PM25")].
Defined.

Lemma load_stations_raises (station_entries : list (string * json))
    (station : string * json) (e : exn) :
  In station station_entries ->
  station_codes (snd station) = Raise e ->
  forall start,
  fold_res (fun flat_map station =>
              codes <- station_codes (snd station) ;;
              Ok (add_codes flat_map codes)) station_entries start
  = Raise AttributeError.
Proof.
  intros I R.
  induction station_entries as [|st sts IH]; intros m; [destruct I|].
  cbn [fold_res].
  destruct (station_codes (snd st)) as [codes|e'] eqn:C; cbn [bind].
  - destruct I as [-> | I]; [congruence | now apply IH].
  - unfold station_codes in C.
    destruct (snd st) as [| | | | | |info]; try (now injection C as <-).
    destruct (dict_get "codes" info (JObj [])); try discriminate C;
      now injection C as <-.
Qed.

(** X9.  A station entry of the code map that is no object, or whose
    [codes] is no object, makes [load_code_map] raise [AttributeError],
    whatever the other entries hold. *)
Theorem load_code_map_all_or_nothing
    (d : dict) (station_entries : list (string * json))
    (station : string * json) :
  dict_get "stations" d (JObj []) = JObj station_entries ->
  In station station_entries ->
  (not_object (snd station)
   \/ exists info v, snd station = JObj info
                     /\ lookup "codes" info = Some v /\ not_object v) ->
  load_code_map (Some (Parsed (JObj d))) = Raise AttributeError.
Proof.
  intros S I B. unfold load_code_map. rewrite S.
  apply (load_stations_raises station_entries station AttributeError I).
  unfold station_codes. destruct B as [B | (info & v & -> & L & B)].
  - destruct (snd station) as [| | | | | |info]; try reflexivity.
    now destruct (B info).
  - unfold dict_get. rewrite L.
    destruct v as [| | | | | |c]; try reflexivity. now destruct (B c).
Qed.

Lemma load_code_map_all_or_nothing_witness :
  load_code_map (Some (Parsed (JObj demo_broken_code_map)))
  = Raise AttributeError.
Proof.
  apply (load_code_map_all_or_nothing demo_broken_code_map _ ("2", JNull)
           eq_refl).
  - right. left. reflexivity.
  - left. intros info H. discriminate H.
Defined.

(* ------------------------------------------------------------------ *)
(** ** The record extractor: frame, registry and errors *)

(** *** The rows of a document *)

Lemma holds_list_test (d : dict) (key : string) :
  match lookup key d with Some v => is_list v | None => false end = true
  <-> holds_list d key.
Proof.
  unfold holds_list. destruct (lookup key d) as [v|].
  - destruct v; cbn; split; try discriminate; eauto;
      intros [rows H]; discriminate H.
  - split; [discriminate | intros [rows H]; discriminate H].
Qed.

Lemma holds_list_test_false (d : dict) (key : string) :
  ~ holds_list d key ->
  match lookup key d with Some v => is_list v | None => false end = false.
Proof.
  intros H. apply not_true_is_false. now rewrite holds_list_test.
Qed.

Lemma find_rows_first (d : dict) (before after : list string) (key : string)
    (rows : list json) :
  wrapper_keys = (before ++ key :: after)%list ->
  (forall k, In k before -> ~ holds_list d k) ->
  lookup key d = Some (JArr rows) ->
  find_rows (JObj d) = Some rows.
Proof.
  intros W Hb Hk. unfold find_rows. fold wrapper_keys. rewrite W. clear W.
  induction before as [|b before IH]; cbn [app find].
  - rewrite Hk. cbn [is_list]. now rewrite Hk.
  - rewrite holds_list_test_false by (apply Hb; now left).
    apply IH. intros k Hin. apply Hb. now right.
Qed.

Lemma find_rows_none (d : dict) :
  (forall k, In k wrapper_keys -> ~ holds_list d k) -> find_rows (JObj d) = None.
Proof.
  intros H. unfold find_rows. fold wrapper_keys.
  assert (find (fun key => match lookup key d with
                           | Some v => is_list v
                           | None => false
                           end) wrapper_keys = None) as ->; [|reflexivity].
  induction wrapper_keys as [|k ks IH]; [reflexivity|]. cbn [find].
  rewrite holds_list_test_false by (apply H; now left).
  apply IH. intros k' Hin. apply H. now right.
Qed.

(** X10.  A document that is an object is read as the list it holds under
    the first of [data], [Data], [records], [Records] that holds a list; an
    object with no such list, and a document that is neither a list nor an
    object, give no reading and no monitor. *)
Theorem parse_json_to_polars_wrapped
    (repr : json -> string) (code_map : dict) (station_id : Z) :
  (forall d before key after rows,
      wrapper_keys = (before ++ key :: after)%list ->
      (forall k, In k before -> ~ holds_list d k) ->
      lookup key d = Some (JArr rows) ->
      parse_json_to_polars repr (JObj d) code_map station_id
      = parse_json_to_polars repr (JArr rows) code_map station_id)
  /\ (forall d,
        (forall k, In k wrapper_keys -> ~ holds_list d k) ->
        parse_json_to_polars repr (JObj d) code_map station_id = Ok ([], []))
  /\ (forall v,
        is_list v = false -> not_object v ->
        parse_json_to_polars repr v code_map station_id = Ok ([], [])).
Proof.
  split; [|split].
  - intros d before key after rows W Hb Hk. unfold parse_json_to_polars.
    now rewrite (find_rows_first d before after key rows W Hb Hk).
  - intros d H. unfold parse_json_to_polars. now rewrite find_rows_none.
  - intros v Hl Ho. destruct v; try reflexivity; [discriminate Hl|].
    now destruct (Ho d).
Qed.

Lemma filter_valid_non_object (repr : json -> string) (rows : list json)
    (row : json) :
  In row rows -> not_object row -> filter_valid repr rows = Raise AttributeError.
Proof.
  intros Hin Ho. induction rows as [|r rows IH]; [destruct Hin|].
  cbn [filter_valid].
  destruct r as [| | | | | |d];
    try reflexivity.
  destruct Hin as [<- | Hin]; [now destruct (Ho d)|].
  rewrite is_valid_measurement_row_shape. cbn [bind].
  now rewrite (IH Hin).
Qed.

(** X11.  One row that is no object makes [parse_json_to_polars] raise
    [AttributeError], and [process_json_file] with it: the file is lost as
    a whole. *)
Theorem non_object_row_rejects_file
    (repr : json -> string) (json_data : json) (rows : list json) (row : json)
    (code_map : dict) (station_id : Z) :
  find_rows json_data = Some rows -> In row rows -> not_object row ->
  parse_json_to_polars repr json_data code_map station_id
  = Raise AttributeError
  /\ forall name db config now,
       parse_filename name = Some station_id ->
       process_json_file repr name (Parsed json_data) db code_map config now
       = Raise AttributeError.
Proof.
  intros F Hin Ho.
  assert (parse_json_to_polars repr json_data code_map station_id
          = Raise AttributeError) as P.
  { unfold parse_json_to_polars. rewrite F.
    now rewrite (filter_valid_non_object repr rows row Hin Ho). }
  split; [exact P|].
  intros name db config now N. unfold process_json_file. now rewrite N, P.
Qed.

Lemma non_object_row_rejects_file_witness :
  parse_json_to_polars demo_repr demo_stray_rows [] 1 = Raise AttributeError
  /\ forall name db config now,
       parse_filename name = Some 1 ->
       process_json_file demo_repr name (Parsed demo_stray_rows) db []
         config now
       = Raise AttributeError.
Proof.
  refine (non_object_row_rejects_file demo_repr demo_stray_rows _ JNull [] 1
            eq_refl _ _).
  - right. left. reflexivity.
  - intros d H. discriminate H.
Defined.

(** *** The frame *)

Lemma monitor_field_test (key : string) :
  startswith key "S_" && negb (String.eqb key "datetime") = startswith key "S_".
Proof.
  destruct (String.eqb_spec key "datetime") as [->|]; [reflexivity|].
  cbn [negb]. apply andb_true_r.
Qed.

Lemma extract_field_reading code_map sid ts acc item acc' :
  extract_field code_map sid ts acc item = Ok acc' ->
  exists new,
    fst acc' = (fst acc ++ new)%list
    /\ Forall2 (reading_of sid) new
         (map (fun item => (ts, fst item, snd item))
              (filter monitor_field [item])).
Proof.
  unfold extract_field. destruct item as [k v].
  rewrite monitor_field_test. cbn [filter]. unfold monitor_field at 1.
  cbn [fst snd].
  destruct (startswith k "S_").
  - destruct (register_monitor code_map k (snd acc)) as [mons|e];
      [|discriminate]. cbn [bind].
    destruct (coerce_value v) as [x|e] eqn:C; [|discriminate]. cbn [bind].
    intros [= <-]. exists [mkReading sid k ts x]. split; [reflexivity|].
    constructor; [|constructor]. repeat split. exact C.
  - intros [= <-]. exists []. split; [now rewrite app_nil_r | constructor].
Qed.

Lemma extract_fields_reading code_map sid ts d : forall acc acc',
  fold_res (extract_field code_map sid ts) d acc = Ok acc' ->
  exists new,
    fst acc' = (fst acc ++ new)%list
    /\ Forall2 (reading_of sid) new
         (map (fun item => (ts, fst item, snd item)) (filter monitor_field d)).
Proof.
  induction d as [|item d IH]; intros acc acc' H; cbn [fold_res] in H.
  - injection H as <-. exists []. split; [now rewrite app_nil_r | constructor].
  - destruct (extract_field code_map sid ts acc item) as [acc1|e] eqn:E;
      [|discriminate H]. cbn [bind] in H.
    destruct (extract_field_reading _ _ _ _ _ _ E) as (n1 & E1 & F1).
    destruct (IH _ _ H) as (n2 & E2 & F2).
    exists (n1 ++ n2)%list. split; [now rewrite E2, E1, app_assoc|].
    change (item :: d) with ([item] ++ d)%list.
    rewrite filter_app, map_app. now apply Forall2_app.
Qed.

Lemma extract_row_reading code_map sid acc row acc' :
  extract_row code_map sid acc row = Ok acc' ->
  exists new,
    fst acc' = (fst acc ++ new)%list
    /\ Forall2 (reading_of sid) new (reading_fields row).
Proof.
  unfold extract_row, reading_fields.
  destruct row as [| | | | | |d]; try discriminate.
  destruct (normalize_datetime _) as [ts|].
  - apply extract_fields_reading.
  - intros [= <-]. exists []. split; [now rewrite app_nil_r | constructor].
Qed.

Lemma extract_rows_reading code_map sid rows : forall acc acc',
  fold_res (extract_row code_map sid) rows acc = Ok acc' ->
  exists new,
    fst acc' = (fst acc ++ new)%list
    /\ Forall2 (reading_of sid) new (flat_map reading_fields rows).
Proof.
  induction rows as [|row rows IH]; intros acc acc' H; cbn [fold_res] in H.
  - injection H as <-. exists []. split; [now rewrite app_nil_r | constructor].
  - destruct (extract_row code_map sid acc row) as [acc1|e] eqn:E;
      [|discriminate H]. cbn [bind] in H.
    destruct (extract_row_reading _ _ _ _ _ E) as (n1 & E1 & F1).
    destruct (IH _ _ H) as (n2 & E2 & F2).
    exists (n1 ++ n2)%list. split; [now rewrite E2, E1, app_assoc|].
    cbn [flat_map]. now apply Forall2_app.
Qed.

(** A row the filter drops holds no reading. *)
Lemma rejected_row_no_reading (repr : json -> string) (row : json) :
  is_valid_measurement_row repr row = Ok false -> reading_fields row = [].
Proof.
  destruct row as [| | | | | |d]; try reflexivity.
  rewrite is_valid_measurement_row_shape. intros H. unfold reading_fields.
  destruct (dict_get "datetime" d (JStr "")) as [| | | |s| |] eqn:G;
    try reflexivity.
  cbn [py_str] in H.
  unfold normalize_datetime, normalize_datetime_body.
  rewrite datetime_pattern_shape.
  destruct (timestamp_shape s); [discriminate H | reflexivity].
Qed.

Lemma filter_valid_fields (repr : json -> string) (rows : list json) :
  forall valid_rows,
  filter_valid repr rows = Ok valid_rows ->
  flat_map reading_fields valid_rows = flat_map reading_fields rows.
Proof.
  induction rows as [|row rows IH]; intros vs H; cbn [filter_valid] in H.
  - now injection H as <-.
  - destruct (is_valid_measurement_row repr row) as [ok|e] eqn:V;
      [|discriminate H]. cbn [bind] in H.
    destruct (filter_valid repr rows) as [rest|e]; [|discriminate H].
    cbn [bind] in H. injection H as <-. specialize (IH rest eq_refl).
    destruct ok; cbn [flat_map]; rewrite IH; [reflexivity|].
    now rewrite (rejected_row_no_reading repr row V).
Qed.

(** X12.  The frame [parse_json_to_polars] returns holds, in order, one
    reading for each monitor field (a key that starts with [S_]) of each
    row whose timestamp normalizes, and nothing else.  The reading has the
    station id of the call, the key as its monitor code, the normalized
    timestamp, and the coerced value.  Rows the filter drops and rows that
    do not normalize contribute nothing. *)
Theorem frame_holds_the_fields
    (repr : json -> string) (json_data : json) (rows : list json)
    (code_map : dict) (station_id : Z) (df : list Reading)
    (monitors_dict : list (string * MonitorInfo)) :
  find_rows json_data = Some rows ->
  parse_json_to_polars repr json_data code_map station_id
  = Ok (df, monitors_dict) ->
  Forall2 (reading_of station_id) df (flat_map reading_fields rows).
Proof.
  intros F P. unfold parse_json_to_polars in P. rewrite F in P.
  destruct (filter_valid repr rows) as [vs|e] eqn:V; [|discriminate P].
  cbn [bind] in P.
  destruct (extract_rows_reading _ _ _ _ _ P) as (new & E & H).
  cbn in E. subst new. now rewrite <- (filter_valid_fields repr rows vs V).
Qed.

Lemma frame_holds_the_fields_witness :
  Forall2 (reading_of 1)
    [mkReading 1 "S_PM25" "2024-01-01 08:00:00" (Some (FDec false 234 (-1)))]
    (flat_map reading_fields
       [JObj [("datetime", JStr "01-01-2024 08:00"); ("S_PM25", JStr "23.4")];
        JObj [("datetime", JStr "Summary"); ("S_PM25", JStr "Avg")]]).
Proof.
  exact (frame_holds_the_fields demo_repr demo_rows _ [] 1 _ _ eq_refl eq_refl).
Defined.

(** *** The registry *)

Lemma registry_exact_known code_map acc r :
  registry_exact code_map acc ->
  In (rd_monitor_code r) (map fst (snd acc)) ->
  registry_exact code_map ((fst acc ++ [r])%list, snd acc).
Proof.
  intros (Hn & Hk & Hd) Hin. unfold registry_exact. cbn [fst snd].
  split; [exact Hn|]. split; [|exact Hd].
  intros code. rewrite map_app, in_app_iff, <- Hk. cbn.
  split; [tauto|]. intros [H|[<-|[]]]; assumption.
Qed.

Lemma registry_exact_new code_map acc r info :
  registry_exact code_map acc ->
  ~ In (rd_monitor_code r) (map fst (snd acc)) ->
  described code_map (rd_monitor_code r) info ->
  registry_exact code_map
    ((fst acc ++ [r])%list, (snd acc ++ [(rd_monitor_code r, info)])%list).
Proof.
  intros (Hn & Hk & Hd) Hin Hi. unfold registry_exact. cbn [fst snd].
  split; [|split].
  - rewrite map_app. cbn. now apply NoDup_snoc.
  - intros code. rewrite !map_app, !in_app_iff, Hk. cbn. tauto.
  - intros code i H. apply in_app_iff in H.
    destruct H as [H|[[= <- <-]|[]]]; [now apply Hd | exact Hi].
Qed.

Lemma extract_field_exact code_map sid ts acc item acc' :
  registry_exact code_map acc ->
  extract_field code_map sid ts acc item = Ok acc' ->
  registry_exact code_map acc'.
Proof.
  intros Hacc. unfold extract_field. destruct item as [k v].
  destruct (_ && _); [|now intros [= <-]].
  unfold register_monitor.
  destruct (lookup k (snd acc)) as [i|] eqn:L; cbn [bind].
  - destruct (coerce_value v) as [x|e]; [|discriminate]. cbn [bind].
    intros [= <-]. apply registry_exact_known; [exact Hacc|]. cbn.
    destruct (in_dec string_dec k (map fst (snd acc))) as [I|I]; [exact I|].
    apply lookup_none_iff in I. rewrite I in L. discriminate L.
  - apply lookup_none_iff in L. unfold dict_get at 1.
    destruct (lookup k code_map) as [[| | | | | |entry]|] eqn:M;
      try discriminate; cbn [bind];
      (destruct (coerce_value v) as [x|e]; [|discriminate]); cbn [bind];
      intros [= <-];
      apply (registry_exact_new code_map acc (mkReading sid k ts x));
      try assumption; (split; [reflexivity|]); cbn [mi_name mi_unit].
    + exists entry. auto.
    + exists []. auto.
Qed.

Lemma extract_row_exact code_map sid acc row acc' :
  registry_exact code_map acc ->
  extract_row code_map sid acc row = Ok acc' ->
  registry_exact code_map acc'.
Proof.
  intros Hacc. unfold extract_row.
  destruct row as [| | | | | |d]; try discriminate.
  destruct (normalize_datetime _) as [ts|]; [|now intros [= <-]].
  apply fold_res_invariant; [|exact Hacc].
  intros s a s'. apply extract_field_exact.
Qed.

(** X13.  The registry holds each monitor once; its monitors are exactly
    those of the readings; and each entry carries its code, and as name and
    unit the [label] and [unit] of the code map's entry, or the code itself
    and the empty text where the code map is silent. *)
Theorem monitors_dict_exact
    (repr : json -> string) (json_data : json) (code_map : dict)
    (station_id : Z) (df : list Reading)
    (monitors_dict : list (string * MonitorInfo)) :
  parse_json_to_polars repr json_data code_map station_id
  = Ok (df, monitors_dict) ->
  NoDup (map fst monitors_dict)
  /\ (forall code, In code (map fst monitors_dict)
                   <-> In code (map rd_monitor_code df))
  /\ (forall code info, In (code, info) monitors_dict ->
        described code_map code info).
Proof.
  intros P. change (registry_exact code_map (df, monitors_dict)).
  assert (registry_exact code_map ([], [])) as H0.
  { split; [constructor | split; [intros code; reflexivity | intros ? ? []]]. }
  unfold parse_json_to_polars in P.
  destruct (find_rows json_data) as [rows|]; [|now injection P as <- <-].
  destruct (filter_valid repr rows) as [vs|e]; [|discriminate P].
  cbn [bind] in P. revert P. apply fold_res_invariant; [|exact H0].
  intros s a s'. apply extract_row_exact.
Qed.

Lemma monitors_dict_exact_witness :
  parse_json_to_polars demo_repr demo_rows
    [("S_PM25", JObj [("label", JStr "PM 2.5")])] 1
  = Ok ([demo_reading],
        [("S_PM25", mkMonitorInfo "S_PM25" (JStr "PM 2.5") (JStr ""))])
  /\ NoDup (map fst [("S_PM25", mkMonitorInfo "S_PM25" (JStr "PM 2.5") (JStr ""))])
  /\ described [("S_PM25", JObj [("label", JStr "PM 2.5")])] "S_PM25"
       (mkMonitorInfo "S_PM25" (JStr "PM 2.5") (JStr "")).
Proof.
  split; [reflexivity|].
  destruct (monitors_dict_exact demo_repr demo_rows
              [("S_PM25", JObj [("label", JStr "PM 2.5")])] 1 _ _ eq_refl)
    as (N & _ & D).
  split; [exact N|]. apply D. left. reflexivity.
Defined.

(** *** What makes the extractor raise *)

Lemma filter_valid_incl (repr : json -> string) (rows : list json) :
  forall valid_rows,
  filter_valid repr rows = Ok valid_rows -> incl valid_rows rows.
Proof.
  induction rows as [|row rows IH]; intros vs H; cbn [filter_valid] in H.
  - injection H as <-. apply incl_refl.
  - destruct (is_valid_measurement_row repr row) as [ok|e]; [|discriminate H].
    cbn [bind] in H.
    destruct (filter_valid repr rows) as [rest|e]; [|discriminate H].
    cbn [bind] in H. injection H as <-. specialize (IH rest eq_refl).
    destruct ok.
    + intros x [<-|I]; [now left | right; now apply IH].
    + intros x I. right. now apply IH.
Qed.

Lemma filter_valid_raises (repr : json -> string) (rows : list json) :
  forall e,
  filter_valid repr rows = Raise e ->
  exists row, In row rows /\ not_object row.
Proof.
  induction rows as [|row rows IH]; intros e; cbn [filter_valid];
    [discriminate|].
  destruct row as [| | | | | |d];
    try (intros _; eexists; split; [now left | intros d H; discriminate H]).
  rewrite is_valid_measurement_row_shape. cbn [bind].
  destruct (filter_valid repr rows) as [rest|e']; [discriminate|].
  intros _. destruct (IH e' eq_refl) as (row & I & N).
  exists row. split; [now right | exact N].
Qed.

Lemma extract_field_raises code_map sid ts acc item e :
  extract_field code_map sid ts acc item = Raise e ->
  monitor_field item = true
  /\ field_fails code_map (ts, fst item, snd item).
Proof.
  unfold extract_field. destruct item as [k v]. rewrite monitor_field_test.
  unfold monitor_field, field_fails. cbn [fst snd].
  destruct (startswith k "S_"); [|discriminate]. intros H. split; [reflexivity|].
  destruct (register_monitor code_map k (snd acc)) as [mons|e1] eqn:R;
    cbn [bind] in H.
  - right. destruct (coerce_value v) as [x|e2]; [discriminate H | eauto].
  - left. unfold register_monitor, dict_get in R.
    destruct (lookup k (snd acc)); [discriminate R|].
    destruct (lookup k code_map) as [w|]; [|discriminate R].
    exists w. split; [reflexivity|]. intros d ->. discriminate R.
Qed.

Lemma extract_row_raises code_map sid acc row e :
  extract_row code_map sid acc row = Raise e ->
  not_object row \/ exists f, In f (reading_fields row) /\ field_fails code_map f.
Proof.
  unfold extract_row, reading_fields.
  destruct row as [| | | | | |d];
    try (intros _; left; intros d H; discriminate H).
  destruct (normalize_datetime _) as [ts|]; [|discriminate].
  intros H. right. apply fold_res_raises in H.
  destruct H as (item & acc' & I & R).
  apply extract_field_raises in R. destruct R as [M F].
  exists (ts, fst item, snd item). split; [|exact F].
  apply in_map_iff. exists item. split; [reflexivity|].
  apply filter_In. auto.
Qed.

(** X14.  Filtering and extracting the rows of a document raises exactly
    when a row is no object, or when a monitor field of a row whose
    timestamp normalizes has a code the code map describes by something
    that is no object, or a value that cannot be coerced. *)
Theorem parse_json_to_polars_raises_iff
    (repr : json -> string) (json_data : json) (rows : list json)
    (code_map : dict) (station_id : Z) :
  find_rows json_data = Some rows ->
  ((exists e, parse_json_to_polars repr json_data code_map station_id = Raise e)
   <-> (exists row, In row rows /\ not_object row)
       \/ (exists f, In f (flat_map reading_fields rows)
                     /\ field_fails code_map f)).
Proof.
  intros F. unfold parse_json_to_polars. rewrite F. split.
  - intros [e H].
    destruct (filter_valid repr rows) as [vs|e'] eqn:V; cbn [bind] in H.
    + apply fold_res_raises in H. destruct H as (row & acc & I & R).
      apply extract_row_raises in R.
      pose proof (filter_valid_incl repr rows vs V row I) as I'.
      destruct R as [N | (f & If & Ff)]; [left; exists row; split; assumption|].
      right. exists f. split; [|exact Ff].
      apply in_flat_map. eauto.
    + left. eapply filter_valid_raises; eassumption.
  - intros [(row & I & N) | (f & If & Ff)].
    + rewrite (filter_valid_non_object repr rows row I N). cbn [bind]. eauto.
    + destruct (filter_valid repr rows) as [vs|e'] eqn:V; cbn [bind]; [|eauto].
      destruct (fold_res (extract_row code_map station_id) vs ([], []))
        as [[df mons]|e'] eqn:P; [|eauto].
      exfalso.
      destruct (extract_rows_reading _ _ _ _ _ P) as (new & E & H).
      cbn in E. subst new.
      rewrite (filter_valid_fields repr rows vs V) in H.
      destruct (Forall2_in_right _ _ _ f H If) as (r & Ir & _ & _ & Ec & Ev).
      assert (registry_exact code_map (df, mons)) as (_ & K & D).
      { revert P. apply fold_res_invariant.
        - intros s a s'. apply extract_row_exact.
        - split; [constructor | split; [intros code; reflexivity | intros ? ? []]]. }
      cbn [fst snd] in K, D.
      destruct Ff as [(v & L & N) | [e C]]; [|congruence].
      assert (In (snd (fst f)) (map fst mons)) as Im.
      { apply K. rewrite <- Ec. now apply in_map. }
      apply in_map_iff in Im. destruct Im as ([c info] & Ec' & Im).
      cbn in Ec'. subst c.
      destruct (D _ _ Im) as (_ & entry & [L' | [L' _]] & _); [|congruence].
      rewrite L in L'. injection L' as ->. now destruct (N entry).
Qed.

Lemma parse_json_to_polars_raises_iff_witness :
  exists e, parse_json_to_polars demo_repr demo_huge_rows [] 1 = Raise e.
Proof.
  refine (proj2 (parse_json_to_polars_raises_iff demo_repr demo_huge_rows _
                   [] 1 eq_refl) _).
  right. exists ("2024-01-01 08:00:00", "S_PM25", JInt (2 ^ 1024)).
  split; [left; reflexivity|]. right. exists OverflowError. reflexivity.
Defined.

(* ------------------------------------------------------------------ *)
(** ** The store: what a call keeps *)






(** *** Rows are kept *)











(** *** The constraints are kept *)










(** *** One call *)




(** X15.  After a call of [insert_data_duckdb] that returns, the station of
    the call is in the table under the name of the call, and the other
    stations are as they were. *)
Theorem insert_data_duckdb_names_station
    (db : DB) (df : list Reading) (station_id : Z) (station_name : string)
    (monitors_dict : list (string * MonitorInfo)) (report_type : string)
    (granularity now : Z) (db' : DB) :
  insert_data_duckdb db df station_id station_name monitors_dict report_type
    granularity now = Ok db' ->
  In station_id (map st_id (stations db'))
  /\ (forall s, In s (stations db') -> st_id s = station_id ->
        st_name s = station_name)
  /\ (forall s, In s (stations db) -> st_id s <> station_id ->
        In s (stations db')).
Proof.
  unfold insert_data_duckdb. intros H.
  destruct (upsert_station db station_id station_name now) as [db1|e] eqn:U;
    [|discriminate H]. cbn [bind] in H.
  destruct (upsert_monitors_frame (map snd monitors_dict) db1) as (S2 & _).
  assert (stations db' = stations db1) as ->.
  { destruct df as [|r df]; [now injection H as <-|].
    destruct (insert_measurements _ temp_view) as [db4|e] eqn:I;
      injection H as <-; cbn [unregister register stations]; [|exact S2].
    unfold insert_measurements in I. cbn [register views] in I.
    destruct (lookup _ _); [|discriminate I].
    destruct (negb _); [discriminate I|].
    destruct (repeats _); [discriminate I|].
    destruct (fold_left upsert_measurement _ _). injection I as <-. exact S2. }
  clear H S2. unfold upsert_station in U.
  destruct (in_int32 station_id); [|discriminate U]. injection U as <-.
  cbn [stations].
  destruct (existsb (fun s => st_id s =? station_id) (stations db)) eqn:E.
  - split; [|split].
    + rewrite (map_update_column st_id) by reflexivity.
      now apply (existsb_in_map st_id Z.eqb _ _ Z.eqb_eq).
    + intros s I Hs. apply in_map_iff in I. destruct I as (s0 & <- & _).
      destruct (st_id s0 =? station_id) eqn:T; [reflexivity|].
      apply Z.eqb_neq in T. contradiction.
    + intros s I Hs. apply in_map_iff. exists s. split; [|exact I].
      apply Z.eqb_neq in Hs. now rewrite Hs.
  - split; [|split].
    + rewrite map_app, in_app_iff. cbn. auto.
    + intros s I Hs. apply in_app_iff in I. destruct I as [I|[<-|[]]];
        [|reflexivity].
      assert (existsb (fun s => st_id s =? station_id) (stations db) = true);
        [|congruence].
      apply existsb_exists. exists s. split; [exact I | now apply Z.eqb_eq].
    + intros s I _. apply in_app_iff. now left.
Qed.

Lemma insert_data_duckdb_names_station_witness :
  exists db',
    insert_data_duckdb
      (mkDB [mkStation 1 "Centro" 5] [] 1 [] 1 []) [] 1 "Norte" []
      "Average" 60 9 = Ok db'
    /\ In 1 (map st_id (stations db'))
    /\ stations db' = [mkStation 1 "Norte" 5].
Proof.
  eexists. split; [reflexivity|]. split; [|reflexivity].
  exact (proj1 (insert_data_duckdb_names_station
                  (mkDB [mkStation 1 "Centro" 5] [] 1 [] 1 []) [] 1 "Norte" []
                  "Average" 60 9 _ eq_refl)).
Defined.



(** *** One file *)




(* ------------------------------------------------------------------ *)
(** ** The run: constraints, counts and order *)

Lemma process_files_counted repr code_map config now files :
  forall st,
  let st' := fold_left (process_one repr code_map config now) files st in
  (snd (fst st') + snd st' = List.length files + (snd (fst st) + snd st))%nat.
Proof.
  induction files as [|f files IH]; intros st; cbn [fold_left]; [reflexivity|].
  cbv zeta in IH. rewrite IH. destruct st as [[db ok] err]. unfold process_one.
  destruct (process_json_file _ _ _ _ _ _ _); cbn [fst snd List.length]; lia.
Qed.

Lemma ascii_compare_refl (a : ascii) : Ascii.compare a a = Eq.
Proof. unfold Ascii.compare. apply N.compare_refl. Qed.

Lemma ascii_compare_lt_trans (a b c : ascii) :
  Ascii.compare a b = Lt -> Ascii.compare b c = Lt -> Ascii.compare a c = Lt.
Proof.
  unfold Ascii.compare. rewrite !N.compare_lt_iff. apply N.lt_trans.
Qed.

Lemma string_compare_trans (s1 : string) : forall s2 s3,
  String.compare s1 s2 <> Gt -> String.compare s2 s3 <> Gt ->
  String.compare s1 s3 <> Gt.
Proof.
  induction s1 as [|a s1 IH]; intros [|b s2] [|c s3]; cbn;
    try congruence.
  destruct (Ascii.compare a b) eqn:E1; [| |congruence];
    (destruct (Ascii.compare b c) eqn:E2; [| |congruence]).
  - apply Ascii.compare_eq_iff in E1, E2. subst.
    rewrite ascii_compare_refl. apply IH.
  - apply Ascii.compare_eq_iff in E1. subst. rewrite E2. congruence.
  - apply Ascii.compare_eq_iff in E2. subst. rewrite E1. congruence.
  - rewrite (ascii_compare_lt_trans a b c E1 E2). congruence.
Qed.

Lemma string_leb_trans (s1 s2 s3 : string) :
  String.leb s1 s2 = true -> String.leb s2 s3 = true -> String.leb s1 s3 = true.
Proof.
  unfold String.leb. intros H1 H2.
  pose proof (string_compare_trans s1 s2 s3) as T.
  destruct (String.compare s1 s2); try discriminate;
    destruct (String.compare s2 s3); try discriminate;
    destruct (String.compare s1 s3); try reflexivity;
    exfalso; apply T; congruence.
Qed.

Lemma insert_sorted_perm {A : Type} (f : string * A) (l : list (string * A)) :
  Permutation (insert_sorted f l) (f :: l).
Proof.
  induction l as [|g l IH]; cbn [insert_sorted]; [reflexivity|].
  destruct (String.leb (fst f) (fst g)); [reflexivity|].
  rewrite IH. apply perm_swap.
Qed.

Lemma sorted_perm {A : Type} (l : list (string * A)) : Permutation (sorted l) l.
Proof.
  induction l as [|f l IH]; [reflexivity|].
  unfold sorted in *. cbn [fold_right]. rewrite insert_sorted_perm.
  now apply perm_skip.
Qed.

(** Two files of different names are put in place in either order. *)
Lemma insert_sorted_comm {A : Type} (x y : string * A) (l : list (string * A)) :
  fst x <> fst y ->
  insert_sorted x (insert_sorted y l) = insert_sorted y (insert_sorted x l).
Proof.
  intros N.
  assert (String.leb (fst x) (fst y) = true ->
          String.leb (fst y) (fst x) = false) as XY.
  { intros H. apply not_true_is_false. intros H'.
    apply N. now apply String.leb_antisym. }
  assert (String.leb (fst x) (fst y) = false ->
          String.leb (fst y) (fst x) = true) as YX.
  { intros H. destruct (String.leb_total (fst x) (fst y)); congruence. }
  induction l as [|g l IH]; cbn [insert_sorted].
  - destruct (String.leb (fst x) (fst y)) eqn:E.
    + now rewrite (XY eq_refl).
    + now rewrite (YX eq_refl).
  - destruct (String.leb (fst y) (fst g)) eqn:Yg,
             (String.leb (fst x) (fst g)) eqn:Xg; cbn [insert_sorted].
    + destruct (String.leb (fst x) (fst y)) eqn:E.
      * now rewrite (XY eq_refl), Yg.
      * now rewrite (YX eq_refl), Xg.
    + rewrite Yg.
      destruct (String.leb (fst x) (fst y)) eqn:E; [|now rewrite Xg].
      rewrite (string_leb_trans _ _ _ E Yg) in Xg. discriminate Xg.
    + rewrite Xg.
      destruct (String.leb (fst y) (fst x)) eqn:E; [|now rewrite Yg].
      rewrite (string_leb_trans _ _ _ E Xg) in Yg. discriminate Yg.
    + now rewrite Xg, Yg, IH.
Qed.

Lemma sorted_of_permutation {A : Type} (l l' : list (string * A)) :
  Permutation l l' -> NoDup (map fst l) -> sorted l = sorted l'.
Proof.
  unfold sorted. induction 1 as [|x l l' P IH|x y l|l1 l2 l3 P1 IH1 P2 IH2];
    intros N; cbn [fold_right].
  - reflexivity.
  - cbn in N. inversion N; subst. now rewrite IH.
  - apply insert_sorted_comm. cbn in N. inversion N as [|? ? H _]; subst.
    intros E. apply H. left. now symmetry.
  - rewrite IH1 by assumption. apply IH2.
    eapply Permutation_NoDup; [|exact N]. now apply Permutation_map.
Qed.

Lemma json_files_names (entries : list (string * file_content)) :
  NoDup (map fst entries) -> NoDup (map fst (json_files entries)).
Proof.
  unfold json_files. induction entries as [|f entries IH]; intros N.
  - constructor.
  - cbn [map] in N. inversion N as [|? ? H N']; subst. cbn [filter].
    destruct (endswith (fst f) ".json"); [|now apply IH].
    cbn [map]. constructor; [|now apply IH].
    intros I. apply H. apply in_map_iff in I. destruct I as (g & E & I).
    apply filter_In in I. apply in_map_iff. exists g. tauto.
Qed.

Lemma main_completed repr w db' ok err :
  main repr w = Completed db' ok err ->
  exists config code_map entries,
    w_setup w = Ok (config, code_map) /\ w_downloads w = Some entries
    /\ process_all repr (sorted (json_files entries))
         (create_database (w_store w)) code_map config (w_clock w)
       = (db', ok, err).
Proof.
  unfold main. destruct (w_setup w) as [[config code_map]|e]; [|discriminate].
  destruct (w_downloads w) as [entries|]; [|discriminate].
  fold (json_files entries).
  destruct (json_files entries) as [|f fs] eqn:J; [discriminate|].
  destruct (process_all _ _ _ _ _ _) as [[db1 ok1] err1] eqn:P.
  intros [= <- <- <-]. exists config, code_map, entries. now rewrite J.
Qed.





(** X21.  Every JSON file of the directory is counted once, as a success
    or as an error.  When every file has a name without station id or
    holds no JSON, all are counted as successes and the store is as it
    was. *)
Theorem main_counts_every_file
    (repr : json -> string) (w : World) (db' : DB) (ok err : nat)
    (entries : list (string * file_content)) :
  w_downloads w = Some entries ->
  main repr w = Completed db' ok err ->
  (ok + err = List.length (json_files entries))%nat
  /\ (Forall (fun f => parse_filename (fst f) = None \/ snd f = Malformed)
             (json_files entries) ->
      err = 0%nat /\ db' = create_database (w_store w)).
Proof.
  intros D M.
  destruct (main_completed _ _ _ _ _ M)
    as (config & code_map & entries' & _ & D' & P).
  assert (entries' = entries) as -> by congruence. clear D'.
  unfold process_all in P. split.
  - pose proof (process_files_counted repr code_map config (w_clock w)
                  (sorted (json_files entries))
                  (create_database (w_store w), 0%nat, 0%nat)) as H.
    cbv zeta in H. rewrite P in H. cbn [fst snd] in H.
    rewrite (Permutation_length (sorted_perm (json_files entries))) in H. lia.
  - intros F.
    assert (Forall (fun f => parse_filename (fst f) = None \/ snd f = Malformed)
                   (sorted (json_files entries))) as F'.
    { rewrite Forall_forall in F |- *. intros f I. apply F.
      eapply Permutation_in; [apply sorted_perm | exact I]. }
    clear F. revert P F'. generalize (sorted (json_files entries)).
    generalize (create_database (w_store w)). generalize 0%nat at 1.
    intros n db l. revert n db.
    induction l as [|f l IH]; intros n db P F; cbn [fold_left] in P.
    + now injection P as <- <- <-.
    + inversion F as [|? ? Hf Hl]; subst.
      assert (process_one repr code_map config (w_clock w) (db, n, 0%nat) f
              = (db, S n, 0%nat)) as E.
      { unfold process_one, process_json_file.
        destruct Hf as [-> | Hf]; [reflexivity|].
        destruct (parse_filename (fst f)); [|reflexivity]. now rewrite Hf. }
      rewrite E in P. exact (IH _ _ P Hl).
Qed.

Lemma main_counts_every_file_witness :
  exists db' ok err,
    main demo_repr demo_world = Completed db' ok err
    /\ (ok + err = List.length (json_files [demo_file]))%nat.
Proof.
  eexists _, _, _. split; [reflexivity|].
  exact (proj1 (main_counts_every_file demo_repr demo_world _ _ _ [demo_file]
                  eq_refl eq_refl)).
Defined.

(** X22.  The outcome of a run does not depend on the order in which the
    directory lists its entries, their names being distinct: the files are
    processed in the order of their names. *)
Theorem main_ignores_listing_order
    (repr : json -> string) (w : World)
    (entries entries' : list (string * file_content)) :
  Permutation entries entries' ->
  NoDup (map fst entries) ->
  main repr (mkWorld (w_store w) (w_setup w) (Some entries) (w_clock w))
  = main repr (mkWorld (w_store w) (w_setup w) (Some entries') (w_clock w)).
Proof.
  intros P N. unfold main. cbn [w_store w_setup w_downloads w_clock].
  destruct (w_setup w) as [[config code_map]|e]; [|reflexivity].
  fold (json_files entries). fold (json_files entries').
  pose proof (filter_permutation (fun f => endswith (fst f) ".json") _ _ P) as PJ.
  fold (json_files entries) in PJ. fold (json_files entries') in PJ.
  assert (sorted (json_files entries) = sorted (json_files entries')) as S.
  { apply sorted_of_permutation; [exact PJ|]. now apply json_files_names. }
  destruct (json_files entries) as [|f fs] eqn:J,
           (json_files entries') as [|f' fs'] eqn:J'.
  - reflexivity.
  - apply Permutation_nil in PJ. discriminate PJ.
  - symmetry in PJ. apply Permutation_nil in PJ. discriminate PJ.
  - now rewrite S.
Qed.

Lemma main_ignores_listing_order_witness :
  main demo_repr
    (mkWorld None (Ok (demo_config, []))
       (Some [("2_Sur.json", Malformed); demo_file]) 10)
  = main demo_repr
      (mkWorld None (Ok (demo_config, []))
         (Some [demo_file; ("2_Sur.json", Malformed)]) 10).
Proof.
  apply (main_ignores_listing_order demo_repr
           (mkWorld None (Ok (demo_config, [])) None 10)).
  - apply perm_swap.
  - repeat constructor; cbn; [intros [H|[]]; discriminate H | intros []].
Defined.
